(** * StingChat: the streamed-response scanner and the moderation parser

    A shallow embedding of the two routines the specification singles out:

    - the read loop of [handleSubmit] in the three teacher-tool forms
      ([QuizForm], [LessonPlanForm], [AgentQuizForm]), which scans the
      streamed response for a conversation identifier and a completion
      signal;
    - [parseOllamaResponse] and the category formatting and flagging of
      [moderateMessage] in the ask controller.

    JavaScript strings are modelled as [string]: a character is a UTF-16
    code unit below 256 (ASCII and the Latin-1 supplement).  On that
    alphabet [toLowerCase], [trim], [split], [includes], [startsWith],
    [endsWith] and [substring] are written out in full below.  The two
    platform services whose behaviour depends on more than that alphabet,
    [TextDecoder.decode] and [JSON.parse], are parameters of the embedded
    routines; a concrete decoder (for ASCII bytes) and a concrete JSON
    reader are defined in this file and used wherever a statement is
    evaluated on a concrete input. *)

From Stdlib Require Import String Ascii List ZArith Lia Bool Arith.
From Stdlib Require Import Strings.Byte Numbers.DecimalString.
Import ListNotations.
Open Scope list_scope.
Open Scope string_scope.

(* ================================================================== *)
(** * JavaScript string primitives *)
(* ================================================================== *)

Module Js.

(** White space and line terminators removed by [String.prototype.trim],
    restricted to code units below 256: TAB, LF, VT, FF, CR, SP, NBSP. *)
Definition isWhiteSpace (c : ascii) : bool :=
  let n := nat_of_ascii c in
  (((9 <=? n) && (n <=? 13)) || (n =? 32) || (n =? 160))%nat.

(** [toLowerCase] on one code unit below 256: A-Z and the Latin-1 capitals
    U+00C0..U+00DE (the multiplication sign U+00D7 excepted) move up by 32. *)
Definition lowerChar (c : ascii) : ascii :=
  let n := nat_of_ascii c in
  if (((65 <=? n) && (n <=? 90))
      || ((192 <=? n) && (n <=? 222) && negb (n =? 215)))%nat
  then ascii_of_nat (n + 32) else c.

Fixpoint toLowerCase (s : string) : string :=
  match s with
  | EmptyString => EmptyString
  | String c r => String (lowerChar c) (toLowerCase r)
  end.

Fixpoint trimStart (s : string) : string :=
  match s with
  | EmptyString => EmptyString
  | String c r => if isWhiteSpace c then trimStart r else s
  end.

Fixpoint trimEnd (s : string) : string :=
  match s with
  | EmptyString => EmptyString
  | String c r =>
      match trimEnd r with
      | EmptyString => if isWhiteSpace c then EmptyString else String c EmptyString
      | t => String c t
      end
  end.

Definition trim (s : string) : string := trimEnd (trimStart s).

(** A text that does not begin with white space. *)
Definition headOk (s : string) : bool :=
  match s with
  | EmptyString => true
  | String c _ => negb (isWhiteSpace c)
  end.

(** [s.startsWith(p)] *)
Fixpoint startsWith (s p : string) : bool :=
  match p, s with
  | EmptyString, _ => true
  | String a p', String b s' => Ascii.eqb a b && startsWith s' p'
  | String _ _, EmptyString => false
  end.

(** [s.substring(n)]: the text from index [n] on. *)
Fixpoint substring (n : nat) (s : string) : string :=
  match n, s with
  | O, _ => s
  | S k, String _ r => substring k r
  | S _, EmptyString => EmptyString
  end.

(** [s.endsWith(p)] *)
Definition endsWith (s p : string) : bool :=
  (String.length p <=? String.length s)%nat
  && String.eqb (substring (String.length s - String.length p) s) p.

(** [s.includes(p)] *)
Fixpoint includes (s p : string) : bool :=
  startsWith s p
  || match s with
     | EmptyString => false
     | String _ r => includes r p
     end.

(** [s.split(sep)] for a one-character separator; the empty text splits
    into one empty piece. *)
Fixpoint split (sep : ascii) (s : string) : list string :=
  match s with
  | EmptyString => [EmptyString]
  | String c r =>
      if Ascii.eqb c sep then EmptyString :: split sep r
      else match split sep r with
           | h :: t => String c h :: t
           | [] => [String c EmptyString]
           end
  end.

Definition LF : ascii := ascii_of_nat 10.

(** The text of a line feed, written [nl] where JavaScript writes the
    escape in a string literal. *)
Definition nl : string := String LF EmptyString.

(** [s.replace(/```json\n|\n```/g, '')]: a left-to-right scan that removes
    every non-overlapping match, the first alternative tried first.  The
    counter [skip] is the number of characters of the current match still to
    be dropped. *)
Fixpoint stripFencesFrom (skip : nat) (s : string) : string :=
  match s with
  | EmptyString => EmptyString
  | String c r =>
      match skip with
      | S k => stripFencesFrom k r
      | O =>
          if startsWith s ("```json" ++ nl) then stripFencesFrom 7 r
          else if startsWith s (nl ++ "```") then stripFencesFrom 3 r
          else String c (stripFencesFrom 0 r)
      end
  end.

Definition stripFences (s : string) : string := stripFencesFrom 0 s.

(** A text without a line feed. *)
Fixpoint noLineFeed (s : string) : bool :=
  match s with
  | EmptyString => true
  | String c r => negb (Ascii.eqb c LF) && noLineFeed r
  end.

Definition isDigit (c : ascii) : bool :=
  let n := nat_of_ascii c in ((48 <=? n) && (n <=? 57))%nat.

Fixpoint allDigits (s : string) : bool :=
  match s with
  | EmptyString => true
  | String c r => isDigit c && allDigits r
  end.

(** [s.match(/^s\d+$/)] as a test.  Without the [m] flag [$] is the end of
    the input, and [\d] is an ASCII digit. *)
Definition matchesSDigits (s : string) : bool :=
  match s with
  | String c ds =>
      Ascii.eqb c "s"%char
      && negb (String.eqb ds EmptyString) && allDigits ds
  | EmptyString => false
  end.

(** The numeric value of a digit string, as the comparison operators obtain
    it from a string operand.  The value is kept exact; the comparisons made
    on it (with 1 and with 13) give the same answer on the rounded double,
    rounding being monotone and 1, 13 and 14 being doubles. *)
Fixpoint digitsValueFrom (acc : N) (s : string) : N :=
  match s with
  | EmptyString => acc
  | String c r =>
      digitsValueFrom (acc * 10 + (N_of_ascii c - 48))%N r
  end.

Definition toNumber (ds : string) : N := digitsValueFrom 0%N ds.

(** Template interpolation of a non-negative integer, as in [`S${i + 1}`]. *)
Definition showNat (n : nat) : string :=
  NilEmpty.string_of_uint (Nat.to_uint n).

End Js.

(* ================================================================== *)
(** * JavaScript values and exceptions *)
(* ================================================================== *)

#[local] Set Warnings "-register-all".

(** The values [JSON.parse] produces.  A number [JNum m e] stands for the
    decimal [m * 10^e] of its source text.  Members of an object are kept in
    source order; a repeated key is resolved at lookup (the last one wins, as
    in the object [JSON.parse] builds). *)
Inductive json : Type :=
| JNull
| JBool (b : bool)
| JNum (m e : Z)
| JStr (s : string)
| JArr (items : list json)
| JObj (members : list (string * json)).

Inductive exn : Type := TypeError | SyntaxError.

(** Outcome of a computation that may throw. *)
Inductive result (A : Type) : Type :=
| Ok (a : A)
| Throw (e : exn).
Arguments Ok {A} a.
Arguments Throw {A} e.

Definition bind {A B : Type} (m : result A) (k : A -> result B) : result B :=
  match m with
  | Ok a => k a
  | Throw e => Throw e
  end.

Notation "x <- m ;; k" := (bind m (fun x => k))
  (at level 61, m at next level, right associativity).

(** [try { body } catch (e) { handler }] *)
Definition tryCatch {A : Type} (body : result A) (handler : exn -> A) : A :=
  match body with
  | Ok a => a
  | Throw e => handler e
  end.

Module Value.

(** A number is falsy when its double is zero.  The double nearest to
    [m * 10^e] is zero exactly when [|m| * 10^e <= 2^-1075] (half the least
    subnormal, the tie going to the even neighbour, zero). *)
Definition numberIsNonZero (m e : Z) : bool :=
  (negb (m =? 0)
   && ((0 <=? e) || (10 ^ (- e) <? Z.abs m * 2 ^ 1075)))%Z.

(** [ToBoolean] on a parsed value. *)
Definition truthy (v : json) : bool :=
  match v with
  | JNull => false
  | JBool b => b
  | JNum m e => numberIsNonZero m e
  | JStr s => negb (String.eqb s EmptyString)
  | JArr _ => true
  | JObj _ => true
  end.

Fixpoint lookup (k : string) (members : list (string * json)) : option json :=
  match members with
  | [] => None
  | (k', v) :: rest =>
      match lookup k rest with
      | Some w => Some w
      | None => if String.eqb k' k then Some v else None
      end
  end.

(** [v.k] for a key that no prototype defines (the keys read by the code are
    [message], [conversationId], [final] and [done]): a member of an object,
    [undefined] ([None]) on any other value, a [TypeError] on [null]. *)
Definition getProp (v : json) (k : string) : result (option json) :=
  match v with
  | JNull => Throw TypeError
  | JObj members => Ok (lookup k members)
  | _ => Ok None
  end.

(** [v?.k] where [v] may be [undefined]. *)
Definition optChain (v : option json) (k : string) : result (option json) :=
  match v with
  | None => Ok None
  | Some JNull => Ok None
  | Some w => getProp w k
  end.

(** [v === true] *)
Definition isTrue (v : option json) : bool :=
  match v with
  | Some (JBool true) => true
  | _ => false
  end.

(** [v === null] *)
Definition isNull (v : json) : bool :=
  match v with
  | JNull => true
  | _ => false
  end.

End Value.

(* ================================================================== *)
(** * A JSON reader and writer *)
(* ================================================================== *)

(** The instance of [JSON.parse] used on concrete inputs: the JSON grammar of
    ECMA-404 read by a character automaton (tokens) and a stack automaton
    (values).  It is total, and answers [None] where [JSON.parse] throws a
    [SyntaxError].  One departure: an escape [\uXXXX] naming a code unit
    above U+00FF denotes a character the string model does not have, and the
    reader stops there although [JSON.parse] goes on. *)
Module JSON.

Definition DQUOTE : ascii := ascii_of_nat 34.
Definition BACKSLASH : ascii := ascii_of_nat 92.

Inductive token : Type :=
| TLBrace | TRBrace | TLBracket | TRBracket | TColon | TComma
| TString (s : string)
| TNumber (m e : Z)
| TTrue | TFalse | TNull.

Fixpoint revOnto (s acc : string) : string :=
  match s with
  | EmptyString => acc
  | String c r => revOnto r (String c acc)
  end.

Definition revString (s : string) : string := revOnto s EmptyString.

Definition isJsonSpace (c : ascii) : bool :=
  let n := nat_of_ascii c in
  ((n =? 32) || (n =? 9) || (n =? 10) || (n =? 13))%nat.

Definition structural (c : ascii) : option token :=
  if Ascii.eqb c "{" then Some TLBrace
  else if Ascii.eqb c "}" then Some TRBrace
  else if Ascii.eqb c "[" then Some TLBracket
  else if Ascii.eqb c "]" then Some TRBracket
  else if Ascii.eqb c ":" then Some TColon
  else if Ascii.eqb c "," then Some TComma
  else None.

Definition isDelimiter (c : ascii) : bool :=
  isJsonSpace c
  || match structural c with Some _ => true | None => false end
  || Ascii.eqb c DQUOTE.

(** ** Numbers *)

Fixpoint spanDigits (s : string) : string * string :=
  match s with
  | EmptyString => (EmptyString, EmptyString)
  | String c r =>
      if Js.isDigit c
      then let (d, rest) := spanDigits r in (String c d, rest)
      else (EmptyString, s)
  end.

Definition digitsZ (ds : string) : Z := Z.of_N (Js.toNumber ds).

(** The number grammar: an optional minus sign; an integer part, either a
    single zero or a non-zero digit followed by digits; an optional fraction,
    a point and at least one digit; an optional exponent, [e] or [E], an
    optional sign and at least one digit. *)
Definition readNumber (w : string) : option (Z * Z) :=
  let (neg, w1) :=
    match w with
    | String "-"%char r => (true, r)
    | _ => (false, w)
    end in
  let (ip, w2) := spanDigits w1 in
  let intOk :=
    match ip with
    | EmptyString => false
    | String "0"%char (String _ _) => false
    | _ => true
    end in
  let '(fp, fracOk, w3) :=
    match w2 with
    | String "."%char r =>
        let (d, rest) := spanDigits r in
        (d, negb (String.eqb d EmptyString), rest)
    | _ => (EmptyString, true, w2)
    end in
  let expo : option Z :=
    match w3 with
    | EmptyString => Some 0%Z
    | String c r =>
        if Ascii.eqb c "e" || Ascii.eqb c "E" then
          let (eneg, r1) :=
            match r with
            | String "-"%char r' => (true, r')
            | String "+"%char r' => (false, r')
            | _ => (false, r)
            end in
          let (ed, rest) := spanDigits r1 in
          if negb (String.eqb ed EmptyString) && String.eqb rest EmptyString
          then Some (if eneg then (- digitsZ ed)%Z else digitsZ ed)
          else None
        else None
    end in
  match expo with
  | Some x =>
      if intOk && fracOk then
        let mag := digitsZ (ip ++ fp) in
        Some ((if neg then (- mag)%Z else mag),
              (x - Z.of_nat (String.length fp))%Z)
      else None
  | None => None
  end.

(** A bare word is a literal name or a number. *)
Definition classifyWord (w : string) : option token :=
  if String.eqb w "true" then Some TTrue
  else if String.eqb w "false" then Some TFalse
  else if String.eqb w "null" then Some TNull
  else match readNumber w with
       | Some (m, e) => Some (TNumber m e)
       | None => None
       end.

(** ** Tokens *)

Inductive lexState : Type :=
| LIdle
| LWord (acc : string)                    (* a bare word, reversed *)
| LStr (acc : string)                     (* inside a string, reversed *)
| LEsc (acc : string)                     (* after a backslash *)
| LUni (acc : string) (v : N) (k : nat).  (* after \u and k hex digits *)

Definition escapeChar (c : ascii) : option ascii :=
  if Ascii.eqb c DQUOTE then Some DQUOTE
  else if Ascii.eqb c BACKSLASH then Some BACKSLASH
  else if Ascii.eqb c "/" then Some "/"%char
  else if Ascii.eqb c "b" then Some (ascii_of_nat 8)
  else if Ascii.eqb c "f" then Some (ascii_of_nat 12)
  else if Ascii.eqb c "n" then Some (ascii_of_nat 10)
  else if Ascii.eqb c "r" then Some (ascii_of_nat 13)
  else if Ascii.eqb c "t" then Some (ascii_of_nat 9)
  else None.

Definition hexValue (c : ascii) : option N :=
  let n := N_of_ascii c in
  if ((48 <=? n) && (n <=? 57))%N then Some (n - 48)%N
  else if ((97 <=? n) && (n <=? 102))%N then Some (n - 87)%N
  else if ((65 <=? n) && (n <=? 70))%N then Some (n - 55)%N
  else None.

Definition idleStep (c : ascii) : option (lexState * list token) :=
  if isJsonSpace c then Some (LIdle, [])
  else match structural c with
       | Some t => Some (LIdle, [t])
       | None =>
           if Ascii.eqb c DQUOTE then Some (LStr EmptyString, [])
           else Some (LWord (String c EmptyString), [])
       end.

Definition lexStep (st : lexState) (c : ascii)
  : option (lexState * list token) :=
  match st with
  | LIdle => idleStep c
  | LWord w =>
      if isDelimiter c then
        match classifyWord (revString w), idleStep c with
        | Some t, Some (st', out) => Some (st', t :: out)
        | _, _ => None
        end
      else Some (LWord (String c w), [])
  | LStr acc =>
      if Ascii.eqb c DQUOTE then Some (LIdle, [TString (revString acc)])
      else if Ascii.eqb c BACKSLASH then Some (LEsc acc, [])
      else if (nat_of_ascii c <? 32)%nat then None
      else Some (LStr (String c acc), [])
  | LEsc acc =>
      match escapeChar c with
      | Some d => Some (LStr (String d acc), [])
      | None => if Ascii.eqb c "u" then Some (LUni acc 0%N 0, []) else None
      end
  | LUni acc v k =>
      match hexValue c with
      | None => None
      | Some d =>
          let v' := (v * 16 + d)%N in
          if (k =? 3)%nat then
            if (v' <? 256)%N
            then Some (LStr (String (ascii_of_N v') acc), [])
            else None
          else Some (LUni acc v' (S k), [])
      end
  end.

Fixpoint lexFrom (st : lexState) (s : string) : option (list token) :=
  match s with
  | EmptyString =>
      match st with
      | LIdle => Some []
      | LWord w =>
          match classifyWord (revString w) with
          | Some t => Some [t]
          | None => None
          end
      | _ => None
      end
  | String c r =>
      match lexStep st c with
      | None => None
      | Some (st', out) =>
          match lexFrom st' r with
          | Some ts => Some (out ++ ts)%list
          | None => None
          end
      end
  end.

Definition lex (s : string) : option (list token) := lexFrom LIdle s.

(** ** Values *)

(** An open container: an array with its items so far, an object between
    members, or an object holding a key whose value is being read.  Items and
    members are kept most recent first. *)
Inductive frame : Type :=
| FArr (acc : list json)
| FObj (acc : list (string * json))
| FKey (acc : list (string * json)) (k : string).

(** What the grammar allows next. *)
Inductive mode : Type :=
| MValue                (* a value *)
| MValueOrClose         (* a value or the bracket closing an empty array *)
| MKeyOrClose           (* a key or the brace closing an empty object *)
| MKey                  (* a key *)
| MColon (k : string)   (* the colon after key k *)
| MAfter                (* a comma or the closer of the open container *)
| MDone (v : json).     (* the text holds one value; nothing may follow *)

Definition complete (v : json) (stack : list frame)
  : option (mode * list frame) :=
  match stack with
  | [] => Some (MDone v, [])
  | FArr acc :: rest => Some (MAfter, FArr (v :: acc) :: rest)
  | FKey acc k :: rest => Some (MAfter, FObj ((k, v) :: acc) :: rest)
  | FObj _ :: _ => None
  end.

Definition valueStep (closable : bool) (stack : list frame) (t : token)
  : option (mode * list frame) :=
  match t with
  | TString s => complete (JStr s) stack
  | TNumber m e => complete (JNum m e) stack
  | TTrue => complete (JBool true) stack
  | TFalse => complete (JBool false) stack
  | TNull => complete JNull stack
  | TLBracket => Some (MValueOrClose, FArr [] :: stack)
  | TLBrace => Some (MKeyOrClose, FObj [] :: stack)
  | TRBracket =>
      match closable, stack with
      | true, FArr acc :: rest => complete (JArr (rev acc)) rest
      | _, _ => None
      end
  | _ => None
  end.

Definition parseStep (st : mode * list frame) (t : token)
  : option (mode * list frame) :=
  let (m, stack) := st in
  match m with
  | MValue => valueStep false stack t
  | MValueOrClose => valueStep true stack t
  | MKeyOrClose =>
      match t, stack with
      | TString k, _ => Some (MColon k, stack)
      | TRBrace, FObj acc :: rest => complete (JObj (rev acc)) rest
      | _, _ => None
      end
  | MKey =>
      match t with
      | TString k => Some (MColon k, stack)
      | _ => None
      end
  | MColon k =>
      match t, stack with
      | TColon, FObj acc :: rest => Some (MValue, FKey acc k :: rest)
      | _, _ => None
      end
  | MAfter =>
      match t, stack with
      | TComma, FArr _ :: _ => Some (MValue, stack)
      | TComma, FObj _ :: _ => Some (MKey, stack)
      | TRBracket, FArr acc :: rest => complete (JArr (rev acc)) rest
      | TRBrace, FObj acc :: rest => complete (JObj (rev acc)) rest
      | _, _ => None
      end
  | MDone _ => None
  end.

Fixpoint parseTokens (st : mode * list frame) (ts : list token)
  : option json :=
  match ts with
  | [] =>
      match st with
      | (MDone v, []) => Some v
      | _ => None
      end
  | t :: rest =>
      match parseStep st t with
      | Some st' => parseTokens st' rest
      | None => None
      end
  end.

(** [JSON.parse(text)]; [None] is the [SyntaxError]. *)
Definition parse (text : string) : option json :=
  match lex text with
  | Some ts => parseTokens (MValue, []) ts
  | None => None
  end.

(** ** Writing an array of strings *)

Definition hexDigit (n : N) : ascii :=
  if (n <? 10)%N then ascii_of_N (48 + n) else ascii_of_N (87 + n).

(** [QuoteJSONString] on one code unit below 256. *)
Definition quoteChar (c : ascii) : string :=
  let n := N_of_ascii c in
  if Ascii.eqb c DQUOTE then String BACKSLASH (String DQUOTE EmptyString)
  else if Ascii.eqb c BACKSLASH
  then String BACKSLASH (String BACKSLASH EmptyString)
  else if (n =? 8)%N then String BACKSLASH "b"
  else if (n =? 12)%N then String BACKSLASH "f"
  else if (n =? 10)%N then String BACKSLASH "n"
  else if (n =? 13)%N then String BACKSLASH "r"
  else if (n =? 9)%N then String BACKSLASH "t"
  else if (n <? 32)%N
  then String BACKSLASH
         ("u00" ++ String (hexDigit (n / 16)) (String (hexDigit (n mod 16))
                                                 EmptyString))
  else String c EmptyString.

Fixpoint quoteBody (s : string) : string :=
  match s with
  | EmptyString => EmptyString
  | String c r => quoteChar c ++ quoteBody r
  end.

Definition quote (s : string) : string :=
  String DQUOTE (quoteBody s ++ String DQUOTE EmptyString).

Fixpoint joinQuoted (l : list string) : string :=
  match l with
  | [] => EmptyString
  | [s] => quote s
  | s :: rest => quote s ++ "," ++ joinQuoted rest
  end.

(** The tokens of the written items: strings with commas between them. *)
Fixpoint itemTokens (l : list string) : list token :=
  match l with
  | [] => []
  | [s] => [TString s]
  | s :: rest => TString s :: TComma :: itemTokens rest
  end.

(** [JSON.stringify(l)] for an array [l] of strings. *)
Definition stringify (l : list string) : string :=
  "[" ++ joinQuoted l ++ "]".

End JSON.

(** Concrete texts are written with an apostrophe where the text has a double
    quote and with a vertical bar where it has a line feed: [text] puts the
    two characters back. *)
Fixpoint text (s : string) : string :=
  match s with
  | EmptyString => EmptyString
  | String c r =>
      String (if Ascii.eqb c "'" then JSON.DQUOTE
              else if Ascii.eqb c "|" then Js.LF else c)
             (text r)
  end.

(** A chunk of the response body, as [reader.read()] delivers it. *)
Definition Uint8Array : Type := list byte.

(** The instance of [new TextDecoder().decode(value)] used on concrete
    inputs: a byte below 128 is the character of the same code.  (Bytes from
    128 on belong to multi-byte sequences, which this instance does not
    assemble.) *)
Fixpoint decodeAscii (value : Uint8Array) : string :=
  match value with
  | [] => EmptyString
  | b :: rest => String (ascii_of_byte b) (decodeAscii rest)
  end.

(** The bytes of an ASCII text. *)
Fixpoint bytesOf (s : string) : Uint8Array :=
  match s with
  | EmptyString => []
  | String c r => byte_of_ascii c :: bytesOf r
  end.

(* ================================================================== *)
(** * The stream scan of [handleSubmit] *)
(* ================================================================== *)

(** The two variables the read loop closes over:
    [let conversationId: string | null = null; let isComplete = false;].
    The type annotation is erased at run time: [conversationId] holds [null]
    or whatever value the stream's JSON carried. *)
Record ScanResult : Type := mkScan {
  conversationId : json;
  isComplete : bool
}.

Module Stream.

(** A statement sequence that reads and assigns the two variables and may
    throw.  An assignment made before a throw stays made: the state comes
    back in both outcomes. *)
Definition Step (A : Type) : Type := ScanResult -> ScanResult * result A.

Definition ret {A : Type} (a : A) : Step A := fun st => (st, Ok a).

Definition andThen {A B : Type} (m : Step A) (k : A -> Step B) : Step B :=
  fun st =>
    match m st with
    | (st', Ok a) => k a st'
    | (st', Throw e) => (st', Throw e)
    end.

Notation "x <~ m ;; k" := (andThen m (fun x => k))
  (at level 61, m at next level, right associativity).
Notation "m ;;; k" := (andThen m (fun _ => k))
  (at level 61, right associativity).

(** An expression evaluation, which leaves the variables alone. *)
Definition eval {A : Type} (r : result A) : Step A := fun st => (st, r).

Definition readConversationId : Step json :=
  fun st => (st, Ok (conversationId st)).

Definition assignConversationId (v : json) : Step unit :=
  fun st => (mkScan v (isComplete st), Ok tt).

Definition assignIsComplete (b : bool) : Step unit :=
  fun st => (mkScan (conversationId st) b, Ok tt).

(** [JSON.parse(payload)] inside the [try]. *)
Definition jsonParse (JSON_parse : string -> option json) (payload : string)
  : Step json :=
  eval (match JSON_parse payload with
        | Some v => Ok v
        | None => Throw SyntaxError
        end).

(** [parsed.message?.conversationId] *)
Definition nestedConversationId (parsed : json) : result (option json) :=
  m <- Value.getProp parsed "message" ;;
  Value.optChain m "conversationId".

(** [if (parsed.final === true || parsed.done === true) isComplete = true;] *)
Definition completionSignal (parsed : json) : Step unit :=
  f <~ eval (Value.getProp parsed "final") ;;
  if Value.isTrue f then assignIsComplete true
  else
    d <~ eval (Value.getProp parsed "done") ;;
    if Value.isTrue d then assignIsComplete true else ret tt.

(** [for (const line of lines) { if (line.startsWith('data: ')) { try {...}
    catch (e) { continue; } } }]: the [catch] resumes with the variables as
    the [try] block left them. *)
Definition forLine (tryBlock : string -> Step unit)
    (st : ScanResult) (line : string) : ScanResult :=
  if Js.startsWith line "data: "
  then fst (tryBlock (Js.substring 6 line) st)
  else st.

(** [const chunk = new TextDecoder().decode(value);
     const lines = chunk.split('\n');] *)
Definition linesOf (decode : Uint8Array -> string) (value : Uint8Array)
  : list string :=
  Js.split Js.LF (decode value).

Definition forLines (tryBlock : string -> Step unit)
    (st : ScanResult) (lines : list string) : ScanResult :=
  fold_left (forLine tryBlock) lines st.

(** [while (!isComplete) { const { done, value } = await reader.read();
     if (done) { isComplete = true; break; } ... }].  The reader is the list
    of chunks it has yet to deliver, the end of the list being
    [done === true]; what the loop leaves unread is returned with the
    variables.  (The chunks of a response body are [Uint8Array]s, so the
    test [value instanceof Uint8Array] always passes.) *)
Fixpoint readLoop (decode : Uint8Array -> string)
    (tryBlock : string -> Step unit)
    (st : ScanResult) (reader : list Uint8Array)
  : ScanResult * list Uint8Array :=
  if isComplete st then (st, reader)
  else
    match reader with
    | [] => (mkScan (conversationId st) true, [])
    | value :: rest =>
        readLoop decode tryBlock
                 (forLines tryBlock st (linesOf decode value)) rest
    end.

Definition initial : ScanResult := mkScan JNull false.

End Stream.

Import Stream.

(** ** QuizForm *)
Module QuizForm.

(** The [try] block of the loop in [QuizForm]:
    [if (!conversationId && parsed.message?.conversationId)
       conversationId = parsed.message.conversationId;]
    followed by the completion check.  The assignment reads the member the
    condition has just read. *)
Definition tryBlock (JSON_parse : string -> option json) (payload : string)
  : Step unit :=
  parsed <~ jsonParse JSON_parse payload ;;
  current <~ readConversationId ;;
  (if negb (Value.truthy current) then
     id <~ eval (nestedConversationId parsed) ;;
     match id with
     | Some v => if Value.truthy v then assignConversationId v else ret tt
     | None => ret tt
     end
   else ret tt) ;;;
  completionSignal parsed.

Definition scan (decode : Uint8Array -> string)
    (JSON_parse : string -> option json) (reader : list Uint8Array)
  : ScanResult * list Uint8Array :=
  readLoop decode (tryBlock JSON_parse) initial reader.

End QuizForm.

(** ** LessonPlanForm *)
Module LessonPlanForm.

(** The [try] block of the loop in [LessonPlanForm]:
    [if (conversationId === null
         && parsed.message?.conversationId !== undefined)
       conversationId = parsed.message.conversationId;] *)
Definition tryBlock (JSON_parse : string -> option json) (payload : string)
  : Step unit :=
  parsed <~ jsonParse JSON_parse payload ;;
  current <~ readConversationId ;;
  (if Value.isNull current then
     id <~ eval (nestedConversationId parsed) ;;
     match id with
     | Some v => assignConversationId v
     | None => ret tt
     end
   else ret tt) ;;;
  completionSignal parsed.

Definition scan (decode : Uint8Array -> string)
    (JSON_parse : string -> option json) (reader : list Uint8Array)
  : ScanResult * list Uint8Array :=
  readLoop decode (tryBlock JSON_parse) initial reader.

End LessonPlanForm.

(** ** AgentQuizForm *)
Module AgentQuizForm.

(** The [try] block of the loop in [QuizForm_Agent.tsx], which has the guard
    of [LessonPlanForm]. *)
Definition tryBlock (JSON_parse : string -> option json) (payload : string)
  : Step unit :=
  parsed <~ jsonParse JSON_parse payload ;;
  current <~ readConversationId ;;
  (if Value.isNull current then
     id <~ eval (nestedConversationId parsed) ;;
     match id with
     | Some v => assignConversationId v
     | None => ret tt
     end
   else ret tt) ;;;
  completionSignal parsed.

Definition scan (decode : Uint8Array -> string)
    (JSON_parse : string -> option json) (reader : list Uint8Array)
  : ScanResult * list Uint8Array :=
  readLoop decode (tryBlock JSON_parse) initial reader.

End AgentQuizForm.

(* ================================================================== *)
(** * Moderation: [parseOllamaResponse] and [moderateMessage] *)
(* ================================================================== *)

(** The [moderation] object handed to [saveMessage]. *)
Record Moderation : Type := mkModeration {
  categories : list string;
  checkedAt : Z;
  source : string;
  flagged : bool
}.

Module Moderation.

(** [response.replace(/```json\n|\n```/g, '').trim()]; a value that is not a
    string has no [replace] method, and the call throws. *)
Definition cleanResponse (response : json) : result string :=
  match response with
  | JStr s => Ok (Js.trim (Js.stripFences s))
  | _ => Throw TypeError
  end.

(** The inner [try]: [if (cleanResponse.startsWith('[') &&
    cleanResponse.endsWith(']')) return JSON.parse(cleanResponse);], its
    [catch] only logging.  [Some v] is the [return]; [None] falls through to
    the line-based parsing. *)
Definition jsonArrayAttempt (JSON_parse : string -> option json)
    (clean : string) : option json :=
  if Js.startsWith clean "[" && Js.endsWith clean "]"
  then JSON_parse clean
  else None.

(** [cleanResponse.split('\n').map(line => line.trim().toLowerCase())
      .filter(line => line.length > 0 && !line.includes('no harmful content')
              && !line.includes('analysis:') && !line.includes('categories:'))] *)
Definition candidateLines (clean : string) : list string :=
  filter (fun line =>
            (0 <? String.length line)%nat
            && negb (Js.includes line "no harmful content")
            && negb (Js.includes line "analysis:")
            && negb (Js.includes line "categories:"))
         (map (fun line => Js.toLowerCase (Js.trim line))
              (Js.split Js.LF clean)).

(** [if (lines.every(line => line.includes('safe'))) return ['safe'];
     return lines.filter(line => !line.includes('the message') &&
                                 !line.includes('this content'));] *)
Definition lineBased (clean : string) : json :=
  let lines := candidateLines clean in
  if forallb (fun line => Js.includes line "safe") lines
  then JArr [JStr "safe"]
  else JArr (map JStr
               (filter (fun line =>
                          negb (Js.includes line "the message")
                          && negb (Js.includes line "this content"))
                       lines)).

(** The body of the outer [try] of [parseOllamaResponse]. *)
Definition parseOllamaResponse_try (JSON_parse : string -> option json)
    (response : json) : result json :=
  clean <- cleanResponse response ;;
  match jsonArrayAttempt JSON_parse clean with
  | Some v => Ok v
  | None => Ok (lineBased clean)
  end.

(** [function parseOllamaResponse(response)]: the outer [catch] returns
    [['error']]. *)
Definition parseOllamaResponse (JSON_parse : string -> option json)
    (response : json) : json :=
  tryCatch (parseOllamaResponse_try JSON_parse response)
           (fun _ => JArr [JStr "error"]).

(** The callback of [categories.map] in [moderateMessage].  An element that
    is not a string has no [toLowerCase] method, and the call throws. *)
Definition formatCategory (category : json) : result string :=
  match category with
  | JStr c =>
      let category := Js.trim (Js.toLowerCase c) in
      let number := Js.substring 1 category in
      if Js.matchesSDigits category
         && ((1 <=? Js.toNumber number)%N && (Js.toNumber number <=? 13)%N)
      then Ok ("S" ++ number)
      else if String.eqb category "safe" || String.eqb category "unsafe"
      then Ok (Js.toLowerCase category)
      else Ok category
  | _ => Throw TypeError
  end.

(** [categories.map(...)]: the first throwing element ends the map. *)
Fixpoint formatCategories (l : list json) : result (list string) :=
  match l with
  | [] => Ok []
  | c :: rest =>
      c' <- formatCategory c ;;
      rest' <- formatCategories rest ;;
      Ok (c' :: rest')
  end.

(** [['unsafe', ...Array.from({ length: 13 }, (_, i) => `S${i + 1}`)]] *)
Definition unsafeCategories : list string :=
  "unsafe" :: map (fun i => "S" ++ Js.showNat (i + 1)) (List.seq 0 13).

(** [categories.some(cat => unsafeCategories.includes(cat))] *)
Definition isFlagged (cats : list string) : bool :=
  existsb (fun cat => existsb (String.eqb cat) unsafeCategories) cats.

(** [moderateMessage] from the reply of the guard model on: [responseContent]
    is [ollamaResponse?.data?.choices?.[0]?.message?.content] ([None] when
    [undefined]) and [now] the clock read by [new Date()].  The result is the
    [moderation] object passed to [saveMessage]; [None] when the function
    returns without saving, either at one of its two guards or in its
    [catch], which only logs. *)
Definition moderateMessage (JSON_parse : string -> option json) (now : Z)
    (responseContent : option json) : option Moderation :=
  match responseContent with
  | None => None
  | Some content =>
      if negb (Value.truthy content) then None
      else
        match parseOllamaResponse JSON_parse content with
        | JArr items =>
            match formatCategories items with
            | Ok cats =>
                Some (mkModeration cats now "llama-guard3" (isFlagged cats))
            | Throw _ => None
            end
        | _ => None
        end
  end.

End Moderation.

(* ================================================================== *)
(** * What a stream carries *)
(* ================================================================== *)

(** The notions the properties of the scan are stated with: the events of a
    stream and what each of them carries, read off the text with the same
    primitives as the code uses. *)
Module Events.

Section Observers.

Variable decode : Uint8Array -> string.
Variable JSON_parse : string -> option json.

(** The JSON event of a line: the parsed remainder of a line that begins with
    the prefix. *)
Definition eventOf (line : string) : option json :=
  if Js.startsWith line "data: "
  then JSON_parse (Js.substring 6 line)
  else None.

(** A line that begins with the prefix and whose remainder fails to parse. *)
Definition malformed (line : string) : bool :=
  Js.startsWith line "data: "
  && match JSON_parse (Js.substring 6 line) with
     | Some _ => false
     | None => true
     end.

(** The nested conversation identifier an event carries, if any. *)
Definition carriedId (line : string) : option json :=
  match eventOf line with
  | Some parsed =>
      match nestedConversationId parsed with
      | Ok (Some v) => Some v
      | _ => None
      end
  | None => None
  end.

(** The nested conversation identifier of an event that carries a truthy
    one. *)
Definition truthyId (line : string) : option json :=
  match carriedId line with
  | Some v => if Value.truthy v then Some v else None
  | None => None
  end.

(** A terminal event: [final === true] or [done === true]. *)
Definition isTerminal (parsed : json) : bool :=
  match parsed with
  | JObj members =>
      Value.isTrue (Value.lookup "final" members)
      || Value.isTrue (Value.lookup "done" members)
  | _ => false
  end.

Definition terminal (line : string) : bool :=
  match eventOf line with
  | Some parsed => isTerminal parsed
  | None => false
  end.

(** The first truthy conversation identifier among the given lines. *)
Fixpoint firstTruthyId (lines : list string) : option json :=
  match lines with
  | [] => None
  | line :: rest =>
      match truthyId line with
      | Some v => Some v
      | None => firstTruthyId rest
      end
  end.

(** A chunk one of whose lines is a terminal event. *)
Definition terminalChunk (value : Uint8Array) : bool :=
  existsb terminal (linesOf decode value).

(** The chunks up to and including the first one that holds a terminal
    event. *)
Fixpoint throughTerminal (reader : list Uint8Array) : list Uint8Array :=
  match reader with
  | [] => []
  | value :: rest =>
      if terminalChunk value then [value]
      else value :: throughTerminal rest
  end.

(** The chunks after the first one that holds a terminal event. *)
Fixpoint afterTerminal (reader : list Uint8Array) : list Uint8Array :=
  match reader with
  | [] => []
  | value :: rest =>
      if terminalChunk value then rest else afterTerminal rest
  end.

(** The lines of the given chunks, each chunk split on its own. *)
Definition linesOfChunks (chunks : list Uint8Array) : list string :=
  flat_map (linesOf decode) chunks.

(** Every chunk but the last satisfies [p]. *)
Fixpoint allButLast (p : Uint8Array -> bool) (chunks : list Uint8Array)
  : bool :=
  match chunks with
  | [] => true
  | [_] => true
  | value :: rest => p value && allButLast p rest
  end.

(** The text of the chunks, one after the other. *)
Fixpoint textOfChunks (chunks : list Uint8Array) : string :=
  match chunks with
  | [] => EmptyString
  | value :: rest => decode value ++ textOfChunks rest
  end.

(** A cut between two texts that falls between two lines: the text before it
    is empty or ends with a line feed, or the text after it is empty or
    begins with one. *)
Definition lineBoundary (before after : string) : bool :=
  String.eqb before EmptyString || Js.endsWith before Js.nl
  || String.eqb after EmptyString || Js.startsWith after Js.nl.

(** Every chunk ends at a line boundary of the stream. *)
Fixpoint cutAtLineBoundaries (chunks : list Uint8Array) : bool :=
  match chunks with
  | [] => true
  | value :: rest =>
      lineBoundary (decode value) (textOfChunks rest)
      && cutAtLineBoundaries rest
  end.

(** An event whose nested conversation identifier is present, falsy and not
    [null]: the empty string, zero or [false]. *)
Definition falsyId (line : string) : bool :=
  match carriedId line with
  | Some v => negb (Value.truthy v) && negb (Value.isNull v)
  | None => false
  end.

End Observers.

End Events.

Import Events.

(* ================================================================== *)
(** * Sample inputs *)
(* ================================================================== *)

Module Sample.

Definition lineAbc : string :=
  text "data: {'message':{'conversationId':'abc'}}".

Definition lineXyz : string :=
  text "data: {'message':{'conversationId':'xyz'}}".

Definition lineFinal : string := text "data: {'final':true}".

Definition lineEmptyId : string :=
  text "data: {'message':{'conversationId':''}}".

Definition lineBroken : string := text "data: {'message':{'conv".

(** The three lines of the specification's example, in one chunk. *)
Definition threeLines : Uint8Array :=
  bytesOf (lineAbc ++ Js.nl ++ lineFinal ++ Js.nl ++ lineXyz ++ Js.nl).

(** The same three lines, one chunk each. *)
Definition threeChunks : list Uint8Array :=
  [bytesOf (lineAbc ++ Js.nl); bytesOf (lineFinal ++ Js.nl);
   bytesOf (lineXyz ++ Js.nl)].

(** One event, whole and cut inside its line. *)
Definition oneEvent : Uint8Array := bytesOf (lineAbc ++ Js.nl).

Definition oneEventCut : list Uint8Array :=
  [bytesOf (text "data: {'message':{'conv");
   bytesOf (text "ersationId':'abc'}}|")].

(** Two events and a terminal event in three chunks cut at line
    boundaries. *)
Definition alignedChunks : list Uint8Array :=
  [bytesOf (lineAbc ++ Js.nl); bytesOf lineXyz;
   bytesOf (Js.nl ++ lineFinal ++ Js.nl)].

(** A terminal event followed by an event with an identifier, in one chunk
    and cut at the line boundary. *)
Definition finalThenXyz : Uint8Array :=
  bytesOf (lineFinal ++ Js.nl ++ lineXyz ++ Js.nl).

Definition finalThenXyzCut : list Uint8Array :=
  [bytesOf (lineFinal ++ Js.nl); bytesOf (lineXyz ++ Js.nl)].

(** An event with an empty identifier followed by one with an identifier. *)
Definition emptyIdThenAbc : list Uint8Array :=
  [bytesOf (lineEmptyId ++ Js.nl ++ lineAbc ++ Js.nl)].

(** Replies of the guard model. *)
Definition hateViolence : string := text "['hate', 'violence']".

Definition notJson : string := "[not json at all]".

Definition noise : string := text "Analysis: nothing found.||Categories: none".

Definition noiseInArray : string := text "['analysis: none']".

Definition s1Safe : list string := ["S1"; "safe"].

End Sample.

(* ================================================================== *)
(** * The submission flow of [handleSubmit] *)
(* ================================================================== *)

(** What the user sees when [handleSubmit] ends. *)
Inductive Outcome : Type :=
| Navigate (href : string)    (* window.location.href = href *)
| Alert (message : string).   (* alert(message) *)

(** A step of [handleSubmit] that may [throw new Error(message)]. *)
Inductive Try (A : Type) : Type :=
| Done (a : A)
| Raise (message : string).
Arguments Done {A} a.
Arguments Raise {A} message.

(** The state of the form, [formData], in the two quiz forms. *)
Record FormData : Type := mkFormData {
  subject : string;
  gradeLevel : string;
  topic : string;
  numberOfQuestions : string;
  difficultyLevel : string;
  questionTypes : string;
  additionalInstructions : string
}.

(** The call of [fetch]: the address, the [Authorization] header and the
    fields of the payload that are not constants ([userId] is absent from the
    payload of the agent form). *)
Record Request : Type := mkRequest {
  address : string;
  authorization : string;
  promptText : string;
  messageId : string;
  userId : option string;
  clientTimestamp : string
}.

(** The response as [handleSubmit] uses it: [response.ok], the text read by
    [await response.text()], and the chunks of [response.body], [None] when
    the response has no body. *)
Record Response : Type := mkResponse {
  ok : bool;
  errorText : string;
  body : option (list Uint8Array)
}.

Module Submit.

(** [token.startsWith('Bearer ') ? token : `Bearer ${token}`] *)
Definition authToken (token : string) : string :=
  if Js.startsWith token "Bearer " then token else "Bearer " ++ token.

(** [typeof user.id === 'string'], with the identifier. *)
Definition stringId (id : option json) : option string :=
  match id with
  | Some (JStr s) => Some s
  | _ => None
  end.

(** [v.length]: the length of a string or of an array, the member of that
    name of an object, [undefined] on a number or a boolean. *)
Definition lengthOf (v : json) : option json :=
  match v with
  | JStr s => Some (JNum (Z.of_nat (String.length s)) 0)
  | JArr items => Some (JNum (Z.of_nat (List.length items)) 0)
  | JObj members => Value.lookup "length" members
  | _ => None
  end.

(** [x > 0].  An operand that is a string, an array or an object is first
    converted to a number; [toNumberPositive] says whether that number is
    positive. *)
Definition greaterThanZero (toNumberPositive : json -> bool)
    (x : option json) : bool :=
  match x with
  | None => false
  | Some JNull => false
  | Some (JBool b) => b
  | Some (JNum m e) => (0 <? m)%Z && Value.numberIsNonZero m e
  | Some v => toNumberPositive v
  end.

(** [`${v}`]: a string is itself; [toString] converts the other values. *)
Definition interpolate (toString : json -> string) (v : json) : string :=
  match v with
  | JStr s => s
  | _ => toString v
  end.

(** The template of the two quiz forms, the line of the additional
    instructions being [extra]. *)
Definition quizPrompt (formData : FormData) (extra : string) : string :=
  "Please create a " ++ difficultyLevel formData
  ++ " difficulty quiz for " ++ gradeLevel formData
  ++ " students on the subject of " ++ subject formData
  ++ ", specifically covering " ++ topic formData ++ "." ++ Js.nl
  ++ Js.nl
  ++ "Requirements:" ++ Js.nl
  ++ "- Number of questions: " ++ numberOfQuestions formData ++ Js.nl
  ++ "- Question type(s): " ++ questionTypes formData ++ Js.nl
  ++ extra ++ Js.nl
  ++ Js.nl
  ++ "Please format the quiz as follows:" ++ Js.nl
  ++ "1. Title and subject area at the top" ++ Js.nl
  ++ "2. Clear numbering for each question" ++ Js.nl
  ++ "3. For multiple choice questions, use A, B, C, D format" ++ Js.nl
  ++ "4. Provide an answer key at the end" ++ Js.nl
  ++ "5. Include brief explanations for each answer in the answer key"
  ++ Js.nl
  ++ Js.nl
  ++ "Begin the quiz now:".

End Submit.

(** ** QuizForm *)
Module QuizFormSubmit.

(** [if (typeof token !== 'string' || token.length === 0) throw ...;
     const authToken = ...;
     if (user?.id === undefined || typeof user.id !== 'string') throw ...;]
    The token is [null] ([None]) or a string; the result is the header and
    the identifier of the user. *)
Definition credentials (token : option string) (user : json)
  : Try (string * string) :=
  match token with
  | None => Raise "Authentication token is missing"
  | Some t =>
      if (String.length t =? 0)%nat
      then Raise "Authentication token is missing"
      else
        match Value.optChain (Some user) "id" with
        | Ok id =>
            match Submit.stringId id with
            | Some s => Done (Submit.authToken t, s)
            | None => Raise "User ID is missing or invalid"
            end
        | Throw _ => Raise "User ID is missing or invalid"
        end
  end.

(** [formData.additionalInstructions ? `Additional instructions: ...` : ''] *)
Definition promptText (formData : FormData) : string :=
  Submit.quizPrompt formData
    (if negb (String.eqb (additionalInstructions formData) "")
     then "Additional instructions: " ++ additionalInstructions formData
     else "").

(** From the response to the redirection: the [ok] test, the reader, the
    scan, and [if (typeof conversationId === 'string' &&
    conversationId.length > 0) window.location.href = `/c/${conversationId}`;
    else throw ...].  The result is the address navigated to.  The body is
    the list of the chunks it delivers before it ends (a read that rejects
    is not represented), and the pause of one second between the scan and
    the test leaves no trace here. *)
Definition afterResponse (decode : Uint8Array -> string)
    (JSON_parse : string -> option json) (response : Response)
  : Try string :=
  if negb (ok response)
  then Raise ("Failed to generate quiz: " ++ errorText response)
  else
    match body response with
    | None => Raise "Failed to get response reader"
    | Some reader =>
        match conversationId
                (fst (QuizForm.scan decode JSON_parse reader)) with
        | JStr s =>
            if (0 <? String.length s)%nat then Done ("/c/" ++ s)
            else Raise "No conversation ID found in response"
        | _ => Raise "No conversation ID found in response"
        end
    end.

(** [handleSubmit]: the request sent, if any, and what the user sees.
    [fetch] is the server ([Raise] when the call rejects), [newId] and [now]
    the results of [uuidv4()] and [new Date().toISOString()].  Every error is
    caught and shown by [alert]. *)
Definition handleSubmit (decode : Uint8Array -> string)
    (JSON_parse : string -> option json) (fetch : Request -> Try Response)
    (token : option string) (user : json) (formData : FormData)
    (newId now : string) : option Request * Outcome :=
  match credentials token user with
  | Raise m => (None, Alert ("Error generating quiz: " ++ m))
  | Done (auth, id) =>
      let request :=
        mkRequest "/api/ask/custom" auth (promptText formData) newId
                  (Some id) now in
      (Some request,
       match fetch request with
       | Raise m => Alert ("Error generating quiz: " ++ m)
       | Done response =>
           match afterResponse decode JSON_parse response with
           | Done href => Navigate href
           | Raise m => Alert ("Error generating quiz: " ++ m)
           end
       end)
  end.

End QuizFormSubmit.

(** ** LessonPlanForm *)
Module LessonPlanFormSubmit.

(** [if (token === null || token.length === 0) throw ...;
     const authToken = ...;
     if (user === null || typeof user.id !== 'string') throw ...;] *)
Definition credentials (token : option string) (user : json)
  : Try (string * string) :=
  match token with
  | None => Raise "Authentication token is missing"
  | Some t =>
      if (String.length t =? 0)%nat
      then Raise "Authentication token is missing"
      else if Value.isNull user
      then Raise "User ID is missing or invalid"
      else
        match Value.getProp user "id" with
        | Ok id =>
            match Submit.stringId id with
            | Some s => Done (Submit.authToken t, s)
            | None => Raise "User ID is missing or invalid"
            end
        | Throw _ => Raise "User ID is missing or invalid"
        end
  end.

(** From the response to the redirection, the last test being
    [conversationId !== null && conversationId.length > 0]. *)
Definition afterResponse (decode : Uint8Array -> string)
    (JSON_parse : string -> option json)
    (toNumberPositive : json -> bool) (toString : json -> string)
    (response : Response) : Try string :=
  if negb (ok response)
  then Raise ("Failed to generate Lesson Plan: " ++ errorText response)
  else
    match body response with
    | None => Raise "Failed to get response reader"
    | Some reader =>
        let id :=
          conversationId
            (fst (LessonPlanForm.scan decode JSON_parse reader)) in
        if negb (Value.isNull id)
           && Submit.greaterThanZero toNumberPositive (Submit.lengthOf id)
        then Done ("/c/" ++ Submit.interpolate toString id)
        else Raise "No conversation ID found in response"
    end.

End LessonPlanFormSubmit.

(** ** AgentQuizForm *)
Module AgentQuizFormSubmit.

Definition credentials (token : option string) (user : json)
  : Try (string * string) :=
  match token with
  | None => Raise "Authentication token is missing"
  | Some t =>
      if (String.length t =? 0)%nat
      then Raise "Authentication token is missing"
      else if Value.isNull user
      then Raise "User ID is missing or invalid"
      else
        match Value.getProp user "id" with
        | Ok id =>
            match Submit.stringId id with
            | Some s => Done (Submit.authToken t, s)
            | None => Raise "User ID is missing or invalid"
            end
        | Throw _ => Raise "User ID is missing or invalid"
        end
  end.

(** [formData.additionalInstructions.length > 0
       ? `Additional instructions: ...` : ''] *)
Definition promptText (formData : FormData) : string :=
  Submit.quizPrompt formData
    (if (0 <? String.length (additionalInstructions formData))%nat
     then "Additional instructions: " ++ additionalInstructions formData
     else "").

Definition afterResponse (decode : Uint8Array -> string)
    (JSON_parse : string -> option json)
    (toNumberPositive : json -> bool) (toString : json -> string)
    (response : Response) : Try string :=
  if negb (ok response)
  then Raise ("Failed to generate quiz: " ++ errorText response)
  else
    match body response with
    | None => Raise "Failed to get response reader"
    | Some reader =>
        let id :=
          conversationId
            (fst (AgentQuizForm.scan decode JSON_parse reader)) in
        if negb (Value.isNull id)
           && Submit.greaterThanZero toNumberPositive (Submit.lengthOf id)
        then Done ("/c/" ++ Submit.interpolate toString id)
        else Raise "No conversation ID found in response"
    end.

(** [handleSubmit] of the agent form; its payload carries no [userId]. *)
Definition handleSubmit (decode : Uint8Array -> string)
    (JSON_parse : string -> option json)
    (toNumberPositive : json -> bool) (toString : json -> string)
    (fetch : Request -> Try Response)
    (token : option string) (user : json) (formData : FormData)
    (newId now : string) : option Request * Outcome :=
  match credentials token user with
  | Raise m => (None, Alert ("Error generating quiz: " ++ m))
  | Done (auth, _) =>
      let request :=
        mkRequest "/api/agents/chat" auth (promptText formData) newId
                  None now in
      (Some request,
       match fetch request with
       | Raise m => Alert ("Error generating quiz: " ++ m)
       | Done response =>
           match afterResponse decode JSON_parse toNumberPositive toString
                               response with
           | Done href => Navigate href
           | Raise m => Alert ("Error generating quiz: " ++ m)
           end
       end)
  end.

End AgentQuizFormSubmit.

(* ================================================================== *)
(** * [AskController] *)
(* ================================================================== *)

Module AskController.

(** The variables of [AskController] that [getReqData] assigns; [None] is
    [undefined]. *)
Record ReqVars : Type := mkReqVars {
  userMessage : option json;
  userMessageId : option json;
  userMessagePromise : option json;
  responseMessageId : option json;
  promptTokens : option json;
  conversationId : option json
}.

(** [ToBoolean] where the operand may be [undefined]. *)
Definition truthy (v : option json) : bool :=
  match v with
  | Some w => Value.truthy w
  | None => false
  end.

(** One turn of [for (let key in data)], [value] being [data[key]].  Reading
    [data[key].messageId] throws when the user message is [null] or
    [undefined]; [userMessage] has then been assigned already. *)
Definition getReqDataKey (vars : ReqVars) (key : string)
    (value : option json) : ReqVars * result unit :=
  if String.eqb key "userMessage" then
    let vars1 :=
      mkReqVars value (userMessageId vars) (userMessagePromise vars)
                (responseMessageId vars) (promptTokens vars)
                (conversationId vars) in
    match value with
    | None => (vars1, Throw TypeError)
    | Some v =>
        match Value.getProp v "messageId" with
        | Ok id =>
            (mkReqVars value id (userMessagePromise vars)
                       (responseMessageId vars) (promptTokens vars)
                       (conversationId vars), Ok tt)
        | Throw e => (vars1, Throw e)
        end
    end
  else if String.eqb key "userMessagePromise" then
    (mkReqVars (userMessage vars) (userMessageId vars) value
               (responseMessageId vars) (promptTokens vars)
               (conversationId vars), Ok tt)
  else if String.eqb key "responseMessageId" then
    (mkReqVars (userMessage vars) (userMessageId vars)
               (userMessagePromise vars) value (promptTokens vars)
               (conversationId vars), Ok tt)
  else if String.eqb key "promptTokens" then
    (mkReqVars (userMessage vars) (userMessageId vars)
               (userMessagePromise vars) (responseMessageId vars) value
               (conversationId vars), Ok tt)
  else if negb (truthy (conversationId vars))
          && String.eqb key "conversationId" then
    (mkReqVars (userMessage vars) (userMessageId vars)
               (userMessagePromise vars) (responseMessageId vars)
               (promptTokens vars) value, Ok tt)
  else (vars, Ok tt).

(** [getReqData(data)]: [data] is the object as the list of its enumerable
    members, in the order [for ... in] visits them (an object has each key
    once).  A throw ends the loop and leaves the function. *)
Fixpoint getReqData (vars : ReqVars) (data : list (string * option json))
  : ReqVars * result unit :=
  match data with
  | [] => (vars, Ok tt)
  | (key, value) :: rest =>
      match getReqDataKey vars key value with
      | (vars', Ok _) => getReqData vars' rest
      | (vars', Throw e) => (vars', Throw e)
      end
  end.

(** [conversation && !conversation.title ? null
       : conversation?.title || 'New Chat'], the value assigned to
    [conversation.title]. *)
Definition conversationTitle (conversation : json) : result json :=
  test <- (if Value.truthy conversation
           then t <- Value.getProp conversation "title" ;;
                Ok (negb (truthy t))
           else Ok false) ;;
  if test then Ok JNull
  else
    t <- Value.optChain (Some conversation) "title" ;;
    match t with
    | Some v => if Value.truthy v then Ok v else Ok (JStr "New Chat")
    | None => Ok (JStr "New Chat")
    end.

End AskController.


(** The lines the loop reads: those of the chunks through the first one that
    holds a terminal event. *)
Definition linesRead (decode : Uint8Array -> string)
    (JSON_parse : string -> option json) (reader : list Uint8Array)
  : list string :=
  linesOfChunks decode (throughTerminal decode JSON_parse reader).

(** Replies in a markdown fence. *)
Module Fence.

(** A text with neither a backtick nor a line feed. *)
Fixpoint plain (s : string) : bool :=
  match s with
  | EmptyString => true
  | String c r =>
      negb (Ascii.eqb c "`") && negb (Ascii.eqb c Js.LF) && plain r
  end.

(** The text [body] between the opening fence with its language tag and the
    closing fence, each on a line of its own. *)
Definition wrap (body : string) : string :=
  "```json" ++ Js.nl ++ body ++ Js.nl ++ "```".

End Fence.

(** An element of a parsed array that is not a string. *)
Definition notString (v : json) : bool :=
  match v with
  | JStr _ => false
  | _ => true
  end.

(** More sample inputs. *)
Module SampleMore.

Definition teacher : json := JObj [("id", JStr "u1")].

Definition quiz : FormData :=
  mkFormData "Mathematics" "9th Grade" "Quadratic Equations" "10" "medium"
             "multiple choice" "".


End SampleMore.

(* ================================================================== *)
(** * The events of a stream, read off the stream itself *)
(* ================================================================== *)

(** What a stream carries, written down without the definitions of the scan:
    the lines of a chunk are the pieces of its text between line feeds, an
    event is the parsed remainder of a prefixed line, and its nested
    conversation identifier is the member [conversationId] of its member
    [message] when both are there. *)
Module Spec.

(** The nested conversation identifier of a parsed event. *)
Definition nestedId (parsed : json) : option json :=
  match parsed with
  | JObj members =>
      match Value.lookup "message" members with
      | Some (JObj inner) => Value.lookup "conversationId" inner
      | _ => None
      end
  | _ => None
  end.

Section Stream.

Variable decode : Uint8Array -> string.
Variable JSON_parse : string -> option json.

(** The lines of one chunk. *)
Definition lines (value : Uint8Array) : list string :=
  Js.split Js.LF (decode value).

(** The truthy nested conversation identifier of the event on a line. *)
Definition truthyId (line : string) : option json :=
  match eventOf JSON_parse line with
  | Some parsed =>
      match nestedId parsed with
      | Some v => if Value.truthy v then Some v else None
      | None => None
      end
  | None => None
  end.

(** The first truthy nested conversation identifier on the given lines. *)
Fixpoint firstTruthyId (ls : list string) : option json :=
  match ls with
  | [] => None
  | line :: rest =>
      match truthyId line with
      | Some v => Some v
      | None => firstTruthyId rest
      end
  end.

(** A chunk one of whose lines is a terminal event. *)
Definition terminalChunk (value : Uint8Array) : bool :=
  existsb (terminal JSON_parse) (lines value).

(** The chunks through the first one that holds a terminal event, and the
    chunks after it. *)
Fixpoint chunksRead (reader : list Uint8Array) : list Uint8Array :=
  match reader with
  | [] => []
  | value :: rest =>
      if terminalChunk value then [value] else value :: chunksRead rest
  end.

Fixpoint chunksUnread (reader : list Uint8Array) : list Uint8Array :=
  match reader with
  | [] => []
  | value :: rest =>
      if terminalChunk value then rest else chunksUnread rest
  end.

(** The lines of the chunks read, each chunk cut into lines on its own. *)
Definition linesRead (reader : list Uint8Array) : list string :=
  flat_map lines (chunksRead reader).

End Stream.

End Spec.

(** Streams cut by chunk boundaries. *)
Module SampleCut.



(** A chunk that follows the chunks of interest. *)
Definition trailing : Uint8Array :=
  bytesOf (Sample.lineAbc ++ Js.nl).

End SampleCut.

(* ================================================================== *)
(** * Properties of the stream scan *)
(* ================================================================== *)

(** Case analysis on the 256 characters. *)
Ltac each_char c := destruct c as [[] [] [] [] [] [] [] []].

Section ScanSteps.

Variable JSON_parse : string -> option json.

Lemma completionSignal_spec (parsed : json) (st : ScanResult) :
  fst (completionSignal parsed st) =
  mkScan (conversationId st) (isComplete st || isTerminal parsed).
Proof.
  destruct st as [cid done].
  unfold completionSignal, andThen, eval, assignIsComplete, ret.
  destruct parsed; simpl; try (rewrite orb_false_r; reflexivity).
  destruct (Value.isTrue (Value.lookup "final" members)); simpl.
  - rewrite orb_true_r. reflexivity.
  - destruct (Value.isTrue (Value.lookup "done" members)); simpl.
    + rewrite orb_true_r. reflexivity.
    + rewrite orb_false_r. reflexivity.
Qed.

Lemma nested_throw_not_terminal (parsed : json) (e : exn) :
  nestedConversationId parsed = Throw e -> isTerminal parsed = false.
Proof.
  destruct parsed; simpl; try discriminate; try reflexivity.
  unfold nestedConversationId; simpl.
  destruct (Value.lookup "message" members) as [[]|]; discriminate.
Qed.

(** What one line does to the two variables in [QuizForm]. *)
Lemma QuizForm_forLine (st : ScanResult) (line : string) :
  forLine (QuizForm.tryBlock JSON_parse) st line =
  mkScan (if Value.truthy (conversationId st) then conversationId st
          else match truthyId JSON_parse line with
               | Some v => v
               | None => conversationId st
               end)
         (isComplete st || terminal JSON_parse line).
Proof.
  destruct st as [cid done].
  unfold forLine, truthyId, carriedId, terminal, eventOf.
  destruct (Js.startsWith line "data: ").
  2: { simpl. rewrite orb_false_r. destruct (Value.truthy cid); reflexivity. }
  unfold QuizForm.tryBlock, andThen, jsonParse, eval, readConversationId.
  destruct (JSON_parse (Js.substring 6 line)) as [parsed|]; simpl.
  2: { rewrite orb_false_r. destruct (Value.truthy cid); reflexivity. }
  destruct (Value.truthy cid) eqn:Hc; simpl.
  - unfold ret. simpl. apply completionSignal_spec.
  - destruct (nestedConversationId parsed) as [[v|]|e] eqn:Hn; simpl.
    + destruct (Value.truthy v); simpl; rewrite completionSignal_spec;
        reflexivity.
    + unfold ret. rewrite completionSignal_spec. reflexivity.
    + rewrite (nested_throw_not_terminal _ _ Hn), orb_false_r. reflexivity.
Qed.

(** What one line does to the two variables in [LessonPlanForm]. *)
Lemma LessonPlanForm_forLine (st : ScanResult) (line : string) :
  forLine (LessonPlanForm.tryBlock JSON_parse) st line =
  mkScan (if Value.isNull (conversationId st)
          then match carriedId JSON_parse line with
               | Some v => v
               | None => conversationId st
               end
          else conversationId st)
         (isComplete st || terminal JSON_parse line).
Proof.
  destruct st as [cid done].
  unfold forLine, carriedId, terminal, eventOf.
  destruct (Js.startsWith line "data: ").
  2: { simpl. rewrite orb_false_r. destruct (Value.isNull cid); reflexivity. }
  unfold LessonPlanForm.tryBlock, andThen, jsonParse, eval,
    readConversationId.
  destruct (JSON_parse (Js.substring 6 line)) as [parsed|]; simpl.
  2: { rewrite orb_false_r. destruct (Value.isNull cid); reflexivity. }
  destruct (Value.isNull cid) eqn:Hc; simpl.
  - destruct (nestedConversationId parsed) as [[v|]|e] eqn:Hn; simpl.
    + rewrite completionSignal_spec. reflexivity.
    + unfold ret. rewrite completionSignal_spec. reflexivity.
    + rewrite (nested_throw_not_terminal _ _ Hn), orb_false_r. reflexivity.
  - unfold ret. simpl. apply completionSignal_spec.
Qed.

End ScanSteps.

(** ** The loop, for any [try] block whose completion flag follows the
    terminal events *)
Section ReadLoop.

Variable decode : Uint8Array -> string.
Variable JSON_parse : string -> option json.
Variable tryBlock : string -> Step unit.

Hypothesis tryBlock_complete : forall st line,
  isComplete (forLine tryBlock st line)
  = isComplete st || terminal JSON_parse line.

Lemma forLines_app (st : ScanResult) (l1 l2 : list string) :
  forLines tryBlock st (l1 ++ l2)
  = forLines tryBlock (forLines tryBlock st l1) l2.
Proof. unfold forLines. apply fold_left_app. Qed.

Lemma forLines_complete (lines : list string) (st : ScanResult) :
  isComplete (forLines tryBlock st lines)
  = isComplete st || existsb (terminal JSON_parse) lines.
Proof.
  revert st. induction lines as [|line rest IH]; intros st; simpl.
  - now rewrite orb_false_r.
  - unfold forLines in *. simpl. rewrite IH, tryBlock_complete.
    now rewrite orb_assoc.
Qed.

Lemma readLoop_isComplete (reader : list Uint8Array) (st : ScanResult) :
  isComplete (fst (readLoop decode tryBlock st reader)) = true.
Proof.
  revert st. induction reader as [|value rest IH]; intros st; simpl.
  - destruct (isComplete st) eqn:E; simpl; auto.
  - destruct (isComplete st) eqn:E; simpl; auto.
Qed.

(** The loop reads the chunks through the first one holding a terminal event,
    and leaves the others with the reader. *)
Lemma readLoop_reads (reader : list Uint8Array) (st : ScanResult) :
  isComplete st = false ->
  readLoop decode tryBlock st reader
  = (mkScan (conversationId
               (forLines tryBlock st
                  (linesOfChunks decode
                     (throughTerminal decode JSON_parse reader))))
            true,
     afterTerminal decode JSON_parse reader).
Proof.
  revert st. induction reader as [|value rest IH]; intros st Hst; simpl.
  - now rewrite Hst.
  - rewrite Hst.
    pose proof (forLines_complete (linesOf decode value) st) as Hc.
    rewrite Hst in Hc. simpl in Hc. fold (terminalChunk decode JSON_parse value) in Hc.
    destruct (terminalChunk decode JSON_parse value) eqn:Ht.
    + simpl. rewrite app_nil_r.
      destruct (forLines tryBlock st (linesOf decode value)) as [cid done] eqn:E.
      simpl in Hc. subst done.
      destruct rest; reflexivity.
    + rewrite (IH _ Hc). simpl. unfold linesOfChunks. now rewrite forLines_app.
Qed.

End ReadLoop.

(** ** Lines and chunk boundaries *)

Lemma split_nonempty (sep : ascii) (s : string) : Js.split sep s <> [].
Proof.
  destruct s as [|c r]; simpl; [discriminate|].
  destruct (Ascii.eqb c sep); [discriminate|].
  destruct (Js.split sep r); discriminate.
Qed.

Lemma split_app_sep (sep : ascii) (a b : string) :
  Js.split sep (a ++ String sep b) = (Js.split sep a ++ Js.split sep b)%list.
Proof.
  induction a as [|c r IH]; simpl.
  - now rewrite Ascii.eqb_refl.
  - destruct (Ascii.eqb c sep); [now rewrite IH|].
    rewrite IH.
    destruct (Js.split sep r) as [|h t] eqn:E; [|reflexivity].
    now apply split_nonempty in E.
Qed.

Lemma append_empty_r (s : string) : s ++ "" = s.
Proof. induction s; simpl; congruence. Qed.

Lemma append_assoc (a b c : string) : (a ++ b) ++ c = a ++ (b ++ c).
Proof. induction a; simpl; congruence. Qed.

Lemma substring_suffix (n : nat) (s : string) :
  exists q, s = q ++ Js.substring n s.
Proof.
  revert s. induction n as [|n IH]; intros s.
  - exists "". reflexivity.
  - destruct s as [|c r]; simpl.
    + exists "". reflexivity.
    + destruct (IH r) as [q Hq]. exists (String c q). simpl. congruence.
Qed.

Lemma endsWith_suffix (s p : string) :
  Js.endsWith s p = true -> exists q, s = q ++ p.
Proof.
  unfold Js.endsWith. intros H. apply andb_prop in H as [_ H].
  apply String.eqb_eq in H.
  destruct (substring_suffix (String.length s - String.length p) s) as [q Hq].
  exists q. congruence.
Qed.

Lemma startsWith_prefix (p s : string) :
  Js.startsWith s p = true -> exists q, s = p ++ q.
Proof.
  revert s. induction p as [|a p IH]; intros s H.
  - exists s. reflexivity.
  - destruct s as [|b s]; [discriminate|]. simpl in H.
    apply andb_prop in H as [Hab Hs]. apply Ascii.eqb_eq in Hab. subst b.
    destruct (IH s Hs) as [q ->]. exists q. reflexivity.
Qed.

Lemma lineBoundary_end (a : string) : lineBoundary a "" = true.
Proof.
  unfold lineBoundary.
  destruct (String.eqb a ""), (Js.endsWith a Js.nl); reflexivity.
Qed.

Section LineBoundaries.

Variable decode : Uint8Array -> string.
Variable JSON_parse : string -> option json.
Variable tryBlock : string -> Step unit.

Hypothesis tryBlock_complete : forall st line,
  isComplete (forLine tryBlock st line)
  = isComplete st || terminal JSON_parse line.

(** Two texts cut at a line boundary are scanned one after the other as
    their concatenation is. *)
Lemma forLines_boundary (a b : string) (st : ScanResult) :
  lineBoundary a b = true ->
  forLines tryBlock st (Js.split Js.LF (a ++ b))
  = forLines tryBlock (forLines tryBlock st (Js.split Js.LF a))
      (Js.split Js.LF b).
Proof.
  unfold lineBoundary. intros H.
  apply orb_prop in H as [H|H]; [apply orb_prop in H as [H|H];
                                 [apply orb_prop in H as [H|H]|]|].
  - apply String.eqb_eq in H. subst a. reflexivity.
  - apply endsWith_suffix in H as [q ->]. unfold Js.nl.
    rewrite append_assoc. simpl.
    rewrite !split_app_sep. simpl.
    rewrite !(forLines_app tryBlock). reflexivity.
  - apply String.eqb_eq in H. subst b. now rewrite append_empty_r.
  - apply startsWith_prefix in H as [q ->]. unfold Js.nl.
    change (String Js.LF "" ++ q) with (String Js.LF q).
    rewrite split_app_sep, (forLines_app tryBlock). reflexivity.
Qed.

(** Chunks cut at line boundaries, none but the last holding a terminal
    event, are scanned as their joined text is. *)
Lemma readLoop_aligned (chunks : list Uint8Array) (st : ScanResult) :
  isComplete st = false ->
  cutAtLineBoundaries decode chunks = true ->
  allButLast (fun value => negb (terminalChunk decode JSON_parse value))
             chunks = true ->
  readLoop decode tryBlock st chunks
  = (mkScan (conversationId
               (forLines tryBlock st
                  (Js.split Js.LF (textOfChunks decode chunks))))
            true, []).
Proof.
  revert st. induction chunks as [|value rest IH]; intros st Hst Ha Ht.
  - simpl. now rewrite Hst.
  - simpl in Ha. apply andb_prop in Ha as [Ha1 Ha2].
    destruct rest as [|value2 rest].
    + simpl. rewrite Hst, append_empty_r. unfold linesOf.
      destruct (forLines tryBlock st (Js.split Js.LF (decode value)))
        as [cid done]; simpl.
      destruct done; reflexivity.
    + change (allButLast (fun v => negb (terminalChunk decode JSON_parse v))
                (value :: value2 :: rest))
        with (negb (terminalChunk decode JSON_parse value)
              && allButLast (fun v => negb (terminalChunk decode JSON_parse v))
                   (value2 :: rest)) in Ht.
      apply andb_prop in Ht as [Ht1 Ht2].
      apply negb_true_iff in Ht1.
      assert (Hc : isComplete (forLines tryBlock st (linesOf decode value))
                   = false).
      { rewrite (forLines_complete JSON_parse tryBlock tryBlock_complete).
        rewrite Hst. exact Ht1. }
      change (readLoop decode tryBlock st (value :: value2 :: rest))
        with (if isComplete st then (st, value :: value2 :: rest)
              else readLoop decode tryBlock
                     (forLines tryBlock st (linesOf decode value))
                     (value2 :: rest)).
      rewrite Hst, (IH _ Hc Ha2 Ht2).
      change (textOfChunks decode (value :: value2 :: rest))
        with (decode value ++ textOfChunks decode (value2 :: rest)).
      rewrite (forLines_boundary _ _ _ Ha1). reflexivity.
Qed.

End LineBoundaries.

(** ** First write wins *)

Section FirstWrite.

Variable decode : Uint8Array -> string.
Variable JSON_parse : string -> option json.

Lemma truthyId_truthy (line : string) (v : json) :
  truthyId JSON_parse line = Some v -> Value.truthy v = true.
Proof.
  unfold truthyId. destruct (carriedId JSON_parse line) as [w|]; [|discriminate].
  destruct (Value.truthy w) eqn:E; [|discriminate].
  intros [= <-]. exact E.
Qed.

Lemma QuizForm_forLines_id (lines : list string) (st : ScanResult) :
  conversationId (forLines (QuizForm.tryBlock JSON_parse) st lines)
  = if Value.truthy (conversationId st) then conversationId st
    else match firstTruthyId JSON_parse lines with
         | Some v => v
         | None => conversationId st
         end.
Proof.
  revert st. induction lines as [|line rest IH]; intros st.
  - simpl. now destruct (Value.truthy (conversationId st)).
  - change (forLines (QuizForm.tryBlock JSON_parse) st (line :: rest))
      with (forLines (QuizForm.tryBlock JSON_parse)
              (forLine (QuizForm.tryBlock JSON_parse) st line) rest).
    rewrite IH, QuizForm_forLine. simpl.
    destruct (Value.truthy (conversationId st)) eqn:Hc.
    + now rewrite Hc.
    + destruct (truthyId JSON_parse line) as [v|] eqn:Hv.
      * now rewrite (truthyId_truthy _ _ Hv).
      * now rewrite Hc.
Qed.

Lemma QuizForm_complete (st : ScanResult) (line : string) :
  isComplete (forLine (QuizForm.tryBlock JSON_parse) st line)
  = isComplete st || terminal JSON_parse line.
Proof. now rewrite QuizForm_forLine. Qed.

Lemma LessonPlanForm_complete (st : ScanResult) (line : string) :
  isComplete (forLine (LessonPlanForm.tryBlock JSON_parse) st line)
  = isComplete st || terminal JSON_parse line.
Proof. now rewrite LessonPlanForm_forLine. Qed.

End FirstWrite.

(** ** The scan against the events of the stream *)

Lemma Spec_nestedId (parsed : json) :
  Spec.nestedId parsed
  = match nestedConversationId parsed with
    | Ok (Some v) => Some v
    | _ => None
    end.
Proof.
  destruct parsed; try reflexivity.
  unfold nestedConversationId, Spec.nestedId. simpl.
  destruct (Value.lookup "message" members) as [m|]; [|reflexivity].
  destruct m; try reflexivity.
  simpl. now destruct (Value.lookup "conversationId" members0).
Qed.

Lemma Spec_truthyId JSON_parse (line : string) :
  Spec.truthyId JSON_parse line = truthyId JSON_parse line.
Proof.
  unfold Spec.truthyId, truthyId, carriedId.
  destruct (eventOf JSON_parse line) as [parsed|]; [|reflexivity].
  rewrite Spec_nestedId.
  now destruct (nestedConversationId parsed) as [[v|]|].
Qed.

Lemma Spec_firstTruthyId JSON_parse (ls : list string) :
  Spec.firstTruthyId JSON_parse ls = firstTruthyId JSON_parse ls.
Proof.
  induction ls as [|line rest IH]; simpl; [reflexivity|].
  now rewrite Spec_truthyId, IH.
Qed.

Lemma Spec_chunks decode JSON_parse (reader : list Uint8Array) :
  Spec.chunksRead decode JSON_parse reader
  = throughTerminal decode JSON_parse reader
  /\ Spec.chunksUnread decode JSON_parse reader
     = afterTerminal decode JSON_parse reader.
Proof.
  induction reader as [|value rest [IH1 IH2]]; simpl; [now split|].
  change (Spec.terminalChunk decode JSON_parse value)
    with (terminalChunk decode JSON_parse value).
  destruct (terminalChunk decode JSON_parse value); split; congruence.
Qed.

Lemma Spec_linesRead decode JSON_parse (reader : list Uint8Array) :
  Spec.linesRead decode JSON_parse reader
  = linesOfChunks decode (throughTerminal decode JSON_parse reader).
Proof.
  unfold Spec.linesRead. now rewrite (proj1 (Spec_chunks decode JSON_parse reader)).
Qed.

Lemma firstTruthyId_app JSON_parse (a b : list string) :
  firstTruthyId JSON_parse (a ++ b)
  = match firstTruthyId JSON_parse a with
    | Some v => Some v
    | None => firstTruthyId JSON_parse b
    end.
Proof.
  induction a as [|line rest IH]; simpl; [reflexivity|].
  now destruct (truthyId JSON_parse line).
Qed.

(** The whole outcome of the scan of [QuizForm], against the events of the
    stream. *)
Lemma QuizForm_scan_events decode JSON_parse (reader : list Uint8Array) :
  QuizForm.scan decode JSON_parse reader
  = (mkScan (match Spec.firstTruthyId JSON_parse
                     (Spec.linesRead decode JSON_parse reader) with
             | Some v => v
             | None => JNull
             end) true,
     Spec.chunksUnread decode JSON_parse reader).
Proof.
  unfold QuizForm.scan.
  rewrite (readLoop_reads decode JSON_parse _ (QuizForm_complete JSON_parse))
    by reflexivity.
  rewrite QuizForm_forLines_id, Spec_firstTruthyId, Spec_linesRead,
    (proj2 (Spec_chunks decode JSON_parse reader)).
  reflexivity.
Qed.






(** ** Terminal events *)

Lemma throughTerminal_app decode JSON_parse
    (before after : list Uint8Array) (value : Uint8Array) :
  forallb (fun v => negb (terminalChunk decode JSON_parse v)) before = true ->
  terminalChunk decode JSON_parse value = true ->
  throughTerminal decode JSON_parse (before ++ value :: after)
  = (before ++ [value])%list
  /\ afterTerminal decode JSON_parse (before ++ value :: after) = after.
Proof.
  intros Hb Hv. induction before as [|b rest IH]; simpl.
  - now rewrite Hv.
  - simpl in Hb. apply andb_prop in Hb as [Hb1 Hb2].
    apply negb_true_iff in Hb1. rewrite Hb1.
    destruct (IH Hb2) as [-> ->]. now split.
Qed.

(** C3 (as amended).  In [QuizForm] the scan always ends with
    [isComplete = true].  The loop stops after the first chunk that holds a
    terminal event: the chunks behind it stay unread, while every line of the
    chunks read is processed, the lines that follow the terminal event in its
    chunk included, so that the result is the first truthy identifier among
    all those lines.  In particular an event that follows a terminal event in
    the same chunk sets the identifier when no earlier line has set it.  The
    three lines of the example give [abc] and [true] both in one chunk and in
    one chunk per line; in the latter case the third chunk is never read. *)
Theorem QuizForm_terminal_event_stops_at_chunk :
  (forall decode JSON_parse (reader : list Uint8Array),
      isComplete (fst (QuizForm.scan decode JSON_parse reader)) = true)
  /\ (forall decode JSON_parse (reader : list Uint8Array),
         QuizForm.scan decode JSON_parse reader
         = (mkScan (match Spec.firstTruthyId JSON_parse
                            (Spec.linesRead decode JSON_parse reader) with
                    | Some v => v
                    | None => JNull
                    end) true,
            Spec.chunksUnread decode JSON_parse reader))
  /\ (forall decode JSON_parse (before after : list Uint8Array)
             (value : Uint8Array),
         forallb (fun v => negb (terminalChunk decode JSON_parse v)) before
         = true ->
         terminalChunk decode JSON_parse value = true ->
         QuizForm.scan decode JSON_parse (before ++ value :: after)
         = (fst (QuizForm.scan decode JSON_parse (before ++ [value])), after))
  /\ (forall decode JSON_parse (before after : list Uint8Array)
             (value : Uint8Array) (pre post : list string) (line : string)
             (v : json),
         forallb (fun c => negb (Spec.terminalChunk decode JSON_parse c))
                 before = true ->
         Spec.lines decode value = (pre ++ line :: post)%list ->
         existsb (terminal JSON_parse) pre = true ->
         Spec.firstTruthyId JSON_parse
           (flat_map (Spec.lines decode) before ++ pre)%list = None ->
         Spec.truthyId JSON_parse line = Some v ->
         QuizForm.scan decode JSON_parse (before ++ value :: after)
         = (mkScan v true, after))
  /\ QuizForm.scan decodeAscii JSON.parse [Sample.threeLines]
     = (mkScan (JStr "abc") true, [])
  /\ QuizForm.scan decodeAscii JSON.parse Sample.threeChunks
     = (mkScan (JStr "abc") true, [bytesOf (Sample.lineXyz ++ Js.nl)]).
Proof.
  split; [|split; [|split; [|split; [|split]]]].
  - intros. apply readLoop_isComplete.
  - intros. apply QuizForm_scan_events.
  - intros decode JSON_parse before after value Hb Hv.
    unfold QuizForm.scan.
    rewrite !(readLoop_reads decode JSON_parse _ (QuizForm_complete JSON_parse))
      by reflexivity.
    destruct (throughTerminal_app decode JSON_parse before after value Hb Hv)
      as [-> ->].
    destruct (throughTerminal_app decode JSON_parse before [] value Hb Hv)
      as [-> _].
    reflexivity.
  - intros decode JSON_parse before after value pre post line v
      Hb Hl Ht Hn Hv.
    assert (Hc : terminalChunk decode JSON_parse value = true).
    { change (terminalChunk decode JSON_parse value)
        with (existsb (terminal JSON_parse) (Spec.lines decode value)).
      now rewrite Hl, existsb_app, Ht. }
    rewrite QuizForm_scan_events, Spec_linesRead, Spec_firstTruthyId,
      (proj2 (Spec_chunks decode JSON_parse _)).
    destruct (throughTerminal_app decode JSON_parse before after value Hb Hc)
      as [-> ->].
    unfold linesOfChunks. rewrite flat_map_app. simpl. rewrite app_nil_r.
    change (linesOf decode value) with (Spec.lines decode value).
    change (flat_map (linesOf decode) before)
      with (flat_map (Spec.lines decode) before).
    rewrite Hl, app_assoc, firstTruthyId_app, <- Spec_firstTruthyId, Hn.
    simpl. now rewrite <- Spec_truthyId, Hv.
  - vm_compute. reflexivity.
  - vm_compute. reflexivity.
Qed.

(** Witness of C3: a terminal event and then an event with [xyz] in one
    chunk, followed by another chunk.  The event after the terminal one sets
    the identifier; the chunk after them is left unread. *)
Lemma QuizForm_terminal_event_stops_at_chunk_witness :
  QuizForm.scan decodeAscii JSON.parse
    ([] ++ Sample.finalThenXyz :: [SampleCut.trailing])
  = (mkScan (JStr "xyz") true, [SampleCut.trailing]).
Proof.
  apply (proj1 (proj2 (proj2 (proj2 QuizForm_terminal_event_stops_at_chunk)))
           decodeAscii JSON.parse [] [SampleCut.trailing] Sample.finalThenXyz
           [Sample.lineFinal] [""] Sample.lineXyz (JStr "xyz")).
  - reflexivity.
  - vm_compute. reflexivity.
  - vm_compute. reflexivity.
  - vm_compute. reflexivity.
  - vm_compute. reflexivity.
Defined.

(** Counterexample to C3 as stated: an event that follows a terminal event in
    the same chunk is inspected, and here it even sets the identifier; cut
    after the terminal event, the same stream gives no identifier. *)
Lemma QuizForm_event_after_terminal_inspected :
  decodeAscii Sample.finalThenXyz
  = Sample.lineFinal ++ Js.nl ++ Sample.lineXyz ++ Js.nl
  /\ terminal JSON.parse Sample.lineFinal = true
  /\ fst (QuizForm.scan decodeAscii JSON.parse [Sample.finalThenXyz])
     = mkScan (JStr "xyz") true
  /\ fst (QuizForm.scan decodeAscii JSON.parse
            [bytesOf (Sample.lineFinal ++ Js.nl)])
     = mkScan JNull true
  /\ fst (QuizForm.scan decodeAscii JSON.parse [Sample.finalThenXyz])
     <> fst (QuizForm.scan decodeAscii JSON.parse
               [bytesOf (Sample.lineFinal ++ Js.nl)]).
Proof.
  repeat split; try (vm_compute; reflexivity).
  vm_compute. discriminate.
Qed.

(** ** Chunk boundaries *)

Lemma decodeAscii_app (a b : Uint8Array) :
  decodeAscii (a ++ b)%list = decodeAscii a ++ decodeAscii b.
Proof. induction a as [|x r IH]; simpl; [reflexivity|]. now rewrite IH. Qed.

(** The byte-wise decoder turns the joined chunks into the joined texts. *)
Lemma decodeAscii_concat (chunks : list Uint8Array) :
  decodeAscii (concat chunks) = textOfChunks decodeAscii chunks.
Proof.
  induction chunks as [|value rest IH]; simpl; [reflexivity|].
  now rewrite decodeAscii_app, IH.
Qed.

(** C1 (as amended).  The loop keeps nothing of a chunk for the next one:
    each chunk is decoded and split on its own.  When every chunk ends at a
    line boundary of the stream (the chunk is empty or ends with a line feed,
    or what follows it is empty or begins with one), no chunk but the last
    holds a terminal event, and the text of the whole stream is the texts of
    the chunks one after the other, the scan of the chunks gives the result
    of the scan of the stream delivered as one chunk, in each of the three
    forms. *)
Theorem scan_chunks_cut_at_line_boundaries
    (decode : Uint8Array -> string) (JSON_parse : string -> option json)
    (chunks : list Uint8Array) :
  decode (concat chunks) = textOfChunks decode chunks ->
  cutAtLineBoundaries decode chunks = true ->
  allButLast (fun value => negb (terminalChunk decode JSON_parse value))
             chunks = true ->
  QuizForm.scan decode JSON_parse chunks
  = QuizForm.scan decode JSON_parse [concat chunks]
  /\ LessonPlanForm.scan decode JSON_parse chunks
     = LessonPlanForm.scan decode JSON_parse [concat chunks]
  /\ AgentQuizForm.scan decode JSON_parse chunks
     = AgentQuizForm.scan decode JSON_parse [concat chunks].
Proof.
  intros Hd Ha Ht.
  assert (G : forall tryBlock,
             (forall st line,
                 isComplete (forLine tryBlock st line)
                 = isComplete st || terminal JSON_parse line) ->
             readLoop decode tryBlock initial chunks
             = readLoop decode tryBlock initial [concat chunks]).
  { intros tryBlock H.
    rewrite (readLoop_aligned decode JSON_parse tryBlock H chunks initial)
      by (reflexivity || assumption).
    rewrite (readLoop_aligned decode JSON_parse tryBlock H [concat chunks]
               initial)
      by (reflexivity || (simpl; now rewrite lineBoundary_end)).
    simpl. now rewrite append_empty_r, Hd. }
  split; [|split].
  - apply G, QuizForm_complete.
  - apply G, LessonPlanForm_complete.
  - apply G. exact (LessonPlanForm_complete JSON_parse).
Qed.

(** Witness of C1: two events and a terminal event in three chunks, the first
    cut after a line feed and the second before one. *)
Lemma scan_chunks_cut_at_line_boundaries_witness :
  QuizForm.scan decodeAscii JSON.parse Sample.alignedChunks
  = QuizForm.scan decodeAscii JSON.parse [concat Sample.alignedChunks]
  /\ LessonPlanForm.scan decodeAscii JSON.parse Sample.alignedChunks
     = LessonPlanForm.scan decodeAscii JSON.parse [concat Sample.alignedChunks]
  /\ AgentQuizForm.scan decodeAscii JSON.parse Sample.alignedChunks
     = AgentQuizForm.scan decodeAscii JSON.parse [concat Sample.alignedChunks].
Proof.
  apply (scan_chunks_cut_at_line_boundaries decodeAscii JSON.parse
           Sample.alignedChunks).
  - vm_compute. reflexivity.
  - vm_compute. reflexivity.
  - vm_compute. reflexivity.
Defined.

(** Counterexample to C1 as stated.  The bytes of one event, cut inside the
    line: the first piece fails to parse, the second lacks the prefix, and
    the identifier the single chunk gives is lost.  And a cut at a line
    boundary, after a terminal event: the single chunk gives the identifier
    of the next line, which the loop never reads when it comes in a chunk of
    its own. *)
Lemma scan_depends_on_chunking :
  (concat Sample.oneEventCut = Sample.oneEvent
   /\ fst (QuizForm.scan decodeAscii JSON.parse [Sample.oneEvent])
      = mkScan (JStr "abc") true
   /\ fst (QuizForm.scan decodeAscii JSON.parse Sample.oneEventCut)
      = mkScan JNull true
   /\ fst (LessonPlanForm.scan decodeAscii JSON.parse [Sample.oneEvent])
      = mkScan (JStr "abc") true
   /\ fst (LessonPlanForm.scan decodeAscii JSON.parse Sample.oneEventCut)
      = mkScan JNull true
   /\ fst (QuizForm.scan decodeAscii JSON.parse Sample.oneEventCut)
      <> fst (QuizForm.scan decodeAscii JSON.parse
                [concat Sample.oneEventCut]))
  /\ (concat Sample.finalThenXyzCut = Sample.finalThenXyz
      /\ fst (QuizForm.scan decodeAscii JSON.parse [Sample.finalThenXyz])
         = mkScan (JStr "xyz") true
      /\ fst (QuizForm.scan decodeAscii JSON.parse Sample.finalThenXyzCut)
         = mkScan JNull true).
Proof.
  repeat split; try (vm_compute; reflexivity).
  vm_compute. discriminate.
Qed.

(** ** Malformed lines *)

(** C8.  In [QuizForm] a line that begins with the prefix and whose remainder
    fails to parse leaves both variables as they were, the completion flag
    included, and the loop goes on with the next line: the lines of a chunk
    are processed as if the malformed line were not among them. *)
Theorem QuizForm_malformed_line_skipped
    (JSON_parse : string -> option json) (st : ScanResult) (line : string) :
  malformed JSON_parse line = true ->
  forLine (QuizForm.tryBlock JSON_parse) st line = st
  /\ forall before after : list string,
      forLines (QuizForm.tryBlock JSON_parse) st (before ++ line :: after)
      = forLines (QuizForm.tryBlock JSON_parse) st (before ++ after).
Proof.
  unfold malformed. intros H. apply andb_prop in H as [Hp Hn].
  assert (E : forall st', forLine (QuizForm.tryBlock JSON_parse) st' line = st').
  { intros [cid done]. unfold forLine. rewrite Hp.
    unfold QuizForm.tryBlock, andThen, jsonParse, eval.
    now destruct (JSON_parse (Js.substring 6 line)). }
  split; [apply E|].
  intros before after.
  rewrite !(forLines_app (QuizForm.tryBlock JSON_parse)).
  change (forLines (QuizForm.tryBlock JSON_parse)
            (forLines (QuizForm.tryBlock JSON_parse) st before) (line :: after))
    with (forLines (QuizForm.tryBlock JSON_parse)
            (forLine (QuizForm.tryBlock JSON_parse)
               (forLines (QuizForm.tryBlock JSON_parse) st before) line)
            after).
  now rewrite E.
Qed.

(** Witness of C8: a line cut inside its JSON text. *)
Lemma QuizForm_malformed_line_skipped_witness :
  forLine (QuizForm.tryBlock JSON.parse) (mkScan (JStr "abc") false)
    Sample.lineBroken
  = mkScan (JStr "abc") false
  /\ forall before after : list string,
      forLines (QuizForm.tryBlock JSON.parse) (mkScan (JStr "abc") false)
        (before ++ Sample.lineBroken :: after)
      = forLines (QuizForm.tryBlock JSON.parse) (mkScan (JStr "abc") false)
          (before ++ after).
Proof.
  apply (QuizForm_malformed_line_skipped JSON.parse
           (mkScan (JStr "abc") false) Sample.lineBroken).
  vm_compute. reflexivity.
Defined.

(** ** The three copies of the loop *)

Section ThreeForms.

Variable decode : Uint8Array -> string.
Variable JSON_parse : string -> option json.

Lemma forLine_agree (st : ScanResult) (line : string) :
  Value.isNull (conversationId st) || Value.truthy (conversationId st) = true ->
  falsyId JSON_parse line = false ->
  forLine (QuizForm.tryBlock JSON_parse) st line
  = forLine (LessonPlanForm.tryBlock JSON_parse) st line
  /\ Value.isNull
       (conversationId (forLine (QuizForm.tryBlock JSON_parse) st line))
     || Value.truthy
          (conversationId (forLine (QuizForm.tryBlock JSON_parse) st line))
     = true.
Proof.
  intros Hinv Hf.
  rewrite QuizForm_forLine, LessonPlanForm_forLine. simpl.
  unfold falsyId, truthyId in *.
  destruct st as [cid done]; simpl in *.
  destruct (Value.truthy cid) eqn:Ht.
  - assert (Hn : Value.isNull cid = false) by (destruct cid; easy).
    rewrite Hn, Ht. now split.
  - rewrite orb_false_r in Hinv. rewrite Hinv.
    destruct (carriedId JSON_parse line) as [v|].
    + destruct (Value.truthy v) eqn:Ev; simpl in *.
      * rewrite Ev. split; [reflexivity|]. now rewrite orb_true_r.
      * apply negb_false_iff in Hf. destruct v; try discriminate.
        destruct cid; try discriminate. now split.
    + rewrite Hinv. now split.
Qed.

Lemma forLines_agree (lines : list string) (st : ScanResult) :
  Value.isNull (conversationId st) || Value.truthy (conversationId st) = true ->
  forallb (fun line => negb (falsyId JSON_parse line)) lines = true ->
  forLines (QuizForm.tryBlock JSON_parse) st lines
  = forLines (LessonPlanForm.tryBlock JSON_parse) st lines
  /\ Value.isNull
       (conversationId (forLines (QuizForm.tryBlock JSON_parse) st lines))
     || Value.truthy
          (conversationId (forLines (QuizForm.tryBlock JSON_parse) st lines))
     = true.
Proof.
  revert st. induction lines as [|line rest IH]; intros st Hinv Hl.
  - now split.
  - simpl in Hl. apply andb_prop in Hl as [Hl1 Hl2].
    apply negb_true_iff in Hl1.
    destruct (forLine_agree st line Hinv Hl1) as [E I].
    unfold forLines in *. simpl. rewrite <- E. now apply IH.
Qed.

Lemma readLoop_agree (reader : list Uint8Array) (st : ScanResult) :
  Value.isNull (conversationId st) || Value.truthy (conversationId st) = true ->
  forallb (fun line => negb (falsyId JSON_parse line))
          (linesOfChunks decode reader) = true ->
  readLoop decode (QuizForm.tryBlock JSON_parse) st reader
  = readLoop decode (LessonPlanForm.tryBlock JSON_parse) st reader.
Proof.
  revert st. induction reader as [|value rest IH]; intros st Hinv Hl.
  - reflexivity.
  - simpl in *. rewrite forallb_app in Hl. apply andb_prop in Hl as [Hl1 Hl2].
    destruct (forLines_agree (linesOf decode value) st Hinv Hl1) as [E I].
    rewrite <- E. destruct (isComplete st); [reflexivity|]. now apply IH.
Qed.

(** C5 (as amended).  The loops of [LessonPlanForm] and [AgentQuizForm] give
    the same result on every stream.  The loop of [QuizForm] gives that
    result too on every stream none of whose events carries a nested
    conversation identifier that is falsy without being [null] (the empty
    string, zero, [false]). *)
Theorem three_forms_agree_without_falsy_ids :
  (forall reader : list Uint8Array,
      AgentQuizForm.scan decode JSON_parse reader
      = LessonPlanForm.scan decode JSON_parse reader)
  /\ (forall reader : list Uint8Array,
         forallb (fun line => negb (falsyId JSON_parse line))
                 (linesOfChunks decode reader) = true ->
         QuizForm.scan decode JSON_parse reader
         = LessonPlanForm.scan decode JSON_parse reader).
Proof.
  split.
  - reflexivity.
  - intros reader H. unfold QuizForm.scan, LessonPlanForm.scan.
    now apply readLoop_agree.
Qed.

End ThreeForms.

(** Witness of C5: the three lines of the specification's example. *)
Lemma three_forms_agree_without_falsy_ids_witness :
  QuizForm.scan decodeAscii JSON.parse [Sample.threeLines]
  = LessonPlanForm.scan decodeAscii JSON.parse [Sample.threeLines].
Proof.
  apply (proj2 (three_forms_agree_without_falsy_ids decodeAscii JSON.parse)).
  vm_compute. reflexivity.
Defined.

(** Counterexample to C5 as stated: an event whose identifier is the empty
    string, then an event with an identifier.  [QuizForm] passes over the
    empty string and takes the next identifier; the other two forms keep the
    empty string. *)
Lemma forms_differ_on_empty_id :
  fst (QuizForm.scan decodeAscii JSON.parse Sample.emptyIdThenAbc)
  = mkScan (JStr "abc") true
  /\ fst (LessonPlanForm.scan decodeAscii JSON.parse Sample.emptyIdThenAbc)
     = mkScan (JStr "") true
  /\ fst (AgentQuizForm.scan decodeAscii JSON.parse Sample.emptyIdThenAbc)
     = mkScan (JStr "") true
  /\ QuizForm.scan decodeAscii JSON.parse Sample.emptyIdThenAbc
     <> LessonPlanForm.scan decodeAscii JSON.parse Sample.emptyIdThenAbc.
Proof.
  repeat split; try (vm_compute; reflexivity).
  vm_compute. discriminate.
Qed.

(* ================================================================== *)
(** * Properties of the moderation parser *)
(* ================================================================== *)

(** ** Errors *)

(** C4 (as amended).  On a string the body of [parseOllamaResponse] never
    throws, so its [catch] is never taken and no exception escapes: the
    result is the parsed array when the cleaned text is bracketed and parses,
    and the outcome of the line-based parsing otherwise (text that is no JSON
    array comes back as its own kept lines, or as [safe]).  The fallback
    [error] is what a reply that is not a string gives, and moderation then
    records the single category [error], not flagged. *)
Theorem parseOllamaResponse_error_only_for_non_strings
    (JSON_parse : string -> option json) :
  (forall s : string,
      Moderation.parseOllamaResponse_try JSON_parse (JStr s)
      = Ok (match Moderation.jsonArrayAttempt JSON_parse
                    (Js.trim (Js.stripFences s)) with
            | Some v => v
            | None => Moderation.lineBased (Js.trim (Js.stripFences s))
            end))
  /\ (forall response : json,
         (forall s, response <> JStr s) ->
         Moderation.parseOllamaResponse JSON_parse response
         = JArr [JStr "error"]
         /\ forall now : Z,
             Value.truthy response = true ->
             Moderation.moderateMessage JSON_parse now (Some response)
             = Some (mkModeration ["error"] now "llama-guard3" false)).
Proof.
  split.
  - intros s. unfold Moderation.parseOllamaResponse_try. simpl.
    now destruct (Moderation.jsonArrayAttempt JSON_parse
                    (Js.trim (Js.stripFences s))).
  - intros response H.
    assert (E : Moderation.parseOllamaResponse JSON_parse response
                = JArr [JStr "error"]).
    { destruct response; try reflexivity. now destruct (H s). }
    split; [exact E|].
    intros now Ht. unfold Moderation.moderateMessage. now rewrite Ht, E.
Qed.

(** Witness of C4: a reply that is a number. *)
Lemma parseOllamaResponse_error_only_for_non_strings_witness :
  Moderation.parseOllamaResponse JSON.parse (JNum 7 0) = JArr [JStr "error"]
  /\ forall now : Z,
      Value.truthy (JNum 7 0) = true ->
      Moderation.moderateMessage JSON.parse now (Some (JNum 7 0))
      = Some (mkModeration ["error"] now "llama-guard3" false).
Proof.
  apply (proj2 (parseOllamaResponse_error_only_for_non_strings JSON.parse)).
  intros s. discriminate.
Defined.

(** Counterexample to C4 as stated: a bracketed text that [JSON.parse]
    rejects is handed to the line-based parsing and comes back as a category
    of its own, not as [error]. *)
Lemma unparseable_text_is_not_error :
  JSON.parse Sample.notJson = None
  /\ Moderation.parseOllamaResponse JSON.parse (JStr Sample.notJson)
     = JArr [JStr "[not json at all]"]
  /\ Moderation.parseOllamaResponse JSON.parse (JStr Sample.notJson)
     <> JArr [JStr "error"]
  /\ Moderation.moderateMessage JSON.parse 0 (Some (JStr Sample.notJson))
     = Some (mkModeration ["[not json at all]"] 0 "llama-guard3" false).
Proof.
  repeat split; try (vm_compute; reflexivity).
  vm_compute. discriminate.
Qed.

(** ** Noise *)

(** C10 (as amended).  When the cleaned text is not returned by the
    JSON-array attempt and the noise filters discard every one of its lines,
    the parser returns the single category [safe], and moderation records it
    unflagged. *)
Theorem all_lines_noise_gives_safe
    (JSON_parse : string -> option json) (s : string) :
  Moderation.jsonArrayAttempt JSON_parse (Js.trim (Js.stripFences s)) = None ->
  Moderation.candidateLines (Js.trim (Js.stripFences s)) = [] ->
  Moderation.parseOllamaResponse JSON_parse (JStr s) = JArr [JStr "safe"]
  /\ forall now : Z,
      s <> "" ->
      Moderation.moderateMessage JSON_parse now (Some (JStr s))
      = Some (mkModeration ["safe"] now "llama-guard3" false).
Proof.
  intros Hj Hl.
  assert (E : Moderation.parseOllamaResponse JSON_parse (JStr s)
              = JArr [JStr "safe"]).
  { unfold Moderation.parseOllamaResponse, Moderation.parseOllamaResponse_try.
    simpl. rewrite Hj. unfold Moderation.lineBased. now rewrite Hl. }
  split; [exact E|].
  intros now Hs. unfold Moderation.moderateMessage. rewrite E.
  destruct s; [now destruct Hs|reflexivity].
Qed.

(** Witness of C10: two lines of narrative and an empty line. *)
Lemma all_lines_noise_gives_safe_witness :
  Moderation.parseOllamaResponse JSON.parse (JStr Sample.noise)
  = JArr [JStr "safe"]
  /\ forall now : Z,
      Sample.noise <> "" ->
      Moderation.moderateMessage JSON.parse now (Some (JStr Sample.noise))
      = Some (mkModeration ["safe"] now "llama-guard3" false).
Proof.
  apply (all_lines_noise_gives_safe JSON.parse Sample.noise).
  - vm_compute. reflexivity.
  - vm_compute. reflexivity.
Defined.

(** Counterexample to C10 as stated: the only line of this reply contains
    [analysis:] and the noise filters would discard it, but the text is a
    JSON array and is returned before the line-based parsing is reached. *)
Lemma noise_in_json_array_is_kept :
  Moderation.candidateLines (Js.trim (Js.stripFences Sample.noiseInArray)) = []
  /\ Moderation.parseOllamaResponse JSON.parse (JStr Sample.noiseInArray)
     = JArr [JStr "analysis: none"]
  /\ Moderation.parseOllamaResponse JSON.parse (JStr Sample.noiseInArray)
     <> JArr [JStr "safe"]
  /\ Moderation.moderateMessage JSON.parse 0 (Some (JStr Sample.noiseInArray))
     = Some (mkModeration ["analysis: none"] 0 "llama-guard3" false).
Proof.
  repeat split; try (vm_compute; reflexivity).
  vm_compute. discriminate.
Qed.

(** ** Flagging *)

Lemma isFlagged_iff (cats : list string) :
  Moderation.isFlagged cats = true <->
  exists c, In c cats
            /\ In c ["unsafe"; "S1"; "S2"; "S3"; "S4"; "S5"; "S6"; "S7";
                     "S8"; "S9"; "S10"; "S11"; "S12"; "S13"].
Proof.
  unfold Moderation.isFlagged.
  change Moderation.unsafeCategories
    with ["unsafe"; "S1"; "S2"; "S3"; "S4"; "S5"; "S6"; "S7";
          "S8"; "S9"; "S10"; "S11"; "S12"; "S13"].
  rewrite existsb_exists. split.
  - intros [c [Hc H]]. exists c. split; [exact Hc|].
    apply existsb_exists in H as [u [Hu E]].
    apply String.eqb_eq in E. now subst.
  - intros [c [Hc H]]. exists c. split; [exact Hc|].
    apply existsb_exists. exists c. split; [exact H|apply String.eqb_refl].
Qed.

(** C7.  Whenever moderation records a result, [flagged] is true exactly when
    one of the recorded categories is [unsafe] or one of the codes [S1] to
    [S13]; and the reply [["hate", "violence"]] is recorded with those two
    categories, not flagged. *)
Theorem flagged_iff_unsafe_category :
  (forall (JSON_parse : string -> option json) (now : Z)
          (responseContent : option json) (m : Moderation),
      Moderation.moderateMessage JSON_parse now responseContent = Some m ->
      (flagged m = true <->
       exists c, In c (categories m)
                 /\ In c ["unsafe"; "S1"; "S2"; "S3"; "S4"; "S5"; "S6"; "S7";
                          "S8"; "S9"; "S10"; "S11"; "S12"; "S13"]))
  /\ (forall now : Z,
         Moderation.moderateMessage JSON.parse now
           (Some (JStr Sample.hateViolence))
         = Some (mkModeration ["hate"; "violence"] now "llama-guard3" false)).
Proof.
  split.
  - intros JSON_parse now rc m H. unfold Moderation.moderateMessage in H.
    destruct rc as [content|]; [|discriminate].
    destruct (negb (Value.truthy content)); [discriminate|].
    destruct (Moderation.parseOllamaResponse JSON_parse content);
      try discriminate.
    destruct (Moderation.formatCategories items) as [cats|]; [|discriminate].
    injection H as <-. simpl. apply isFlagged_iff.
  - intros now. reflexivity.
Qed.

(** Witness of C7: the reply [S1] and [S5], one per line. *)
Lemma flagged_iff_unsafe_category_witness :
  flagged (mkModeration ["S1"; "S5"] 0 "llama-guard3" true) = true <->
  exists c, In c (categories (mkModeration ["S1"; "S5"] 0 "llama-guard3" true))
            /\ In c ["unsafe"; "S1"; "S2"; "S3"; "S4"; "S5"; "S6"; "S7";
                     "S8"; "S9"; "S10"; "S11"; "S12"; "S13"].
Proof.
  apply (proj1 flagged_iff_unsafe_category JSON.parse 0%Z
           (Some (JStr (text "S1|S5")))).
  vm_compute. reflexivity.
Defined.

(** ** Category codes *)

(** C6, at the input where the code departs from it.  The candidate [s05]
    passes the range test (its digits are read as the number 5), and the
    category built from it keeps the digits as written: [S05], which is none
    of [S1] to [S13] and is not flagged, where [s5] gives [S5] and is. *)
Theorem formatCategory_keeps_leading_zero :
  Moderation.formatCategory (JStr "s05") = Ok "S05"
  /\ Moderation.formatCategory (JStr "s5") = Ok "S5"
  /\ Moderation.isFlagged ["S05"] = false
  /\ Moderation.isFlagged ["S5"] = true
  /\ Moderation.moderateMessage JSON.parse 0 (Some (JStr "s05"))
     = Some (mkModeration ["S05"] 0 "llama-guard3" false).
Proof. repeat split; vm_compute; reflexivity. Qed.

(** ** Lower-casing and trimming *)

Lemma lowerChar_idem (c : ascii) :
  Js.lowerChar (Js.lowerChar c) = Js.lowerChar c.
Proof. each_char c; reflexivity. Qed.

Lemma lowerChar_whiteSpace (c : ascii) :
  Js.isWhiteSpace (Js.lowerChar c) = Js.isWhiteSpace c.
Proof. each_char c; reflexivity. Qed.

Lemma digit_plain (c : ascii) :
  Js.isDigit c = true -> Js.lowerChar c = c /\ Js.isWhiteSpace c = false.
Proof. each_char c; intros H; try discriminate H; split; reflexivity. Qed.

Lemma toLowerCase_idem (s : string) :
  Js.toLowerCase (Js.toLowerCase s) = Js.toLowerCase s.
Proof.
  induction s as [|c r IH]; simpl; [reflexivity|].
  now rewrite lowerChar_idem, IH.
Qed.

Lemma toLowerCase_trimStart (s : string) :
  Js.toLowerCase (Js.trimStart s) = Js.trimStart (Js.toLowerCase s).
Proof.
  induction s as [|c r IH]; simpl; [reflexivity|].
  rewrite lowerChar_whiteSpace. now destruct (Js.isWhiteSpace c).
Qed.

Lemma toLowerCase_trimEnd (s : string) :
  Js.toLowerCase (Js.trimEnd s) = Js.trimEnd (Js.toLowerCase s).
Proof.
  induction s as [|c r IH]; simpl; [reflexivity|].
  rewrite <- IH, lowerChar_whiteSpace.
  destruct (Js.trimEnd r); simpl; [|reflexivity].
  now destruct (Js.isWhiteSpace c).
Qed.

Lemma toLowerCase_trim (s : string) :
  Js.toLowerCase (Js.trim s) = Js.trim (Js.toLowerCase s).
Proof. unfold Js.trim. now rewrite toLowerCase_trimEnd, toLowerCase_trimStart. Qed.

Lemma trimEnd_idem (s : string) : Js.trimEnd (Js.trimEnd s) = Js.trimEnd s.
Proof.
  induction s as [|c r IH]; simpl; [reflexivity|].
  destruct (Js.trimEnd r) as [|d t] eqn:E.
  - destruct (Js.isWhiteSpace c) eqn:W; simpl; [reflexivity|now rewrite W].
  - change (Js.trimEnd (String c (String d t)))
      with (match Js.trimEnd (String d t) with
            | EmptyString =>
                if Js.isWhiteSpace c then EmptyString else String c EmptyString
            | String a u => String c (String a u)
            end).
    now rewrite IH.
Qed.

Lemma headOk_trimStart (s : string) : Js.headOk (Js.trimStart s) = true.
Proof.
  induction s as [|c r IH]; simpl; [reflexivity|].
  destruct (Js.isWhiteSpace c) eqn:W; [exact IH|]. simpl. now rewrite W.
Qed.

Lemma headOk_trimEnd (s : string) :
  Js.headOk s = true -> Js.headOk (Js.trimEnd s) = true.
Proof.
  destruct s as [|c r]; simpl; [reflexivity|]. intros H.
  destruct (Js.trimEnd r); [|exact H].
  destruct (Js.isWhiteSpace c) eqn:W; simpl; [discriminate H|now rewrite W].
Qed.

Lemma trimStart_headOk (s : string) : Js.headOk s = true -> Js.trimStart s = s.
Proof.
  destruct s as [|c r]; simpl; [reflexivity|]. intros H.
  apply negb_true_iff in H. now rewrite H.
Qed.

Lemma trim_idem (s : string) : Js.trim (Js.trim s) = Js.trim s.
Proof.
  unfold Js.trim.
  rewrite (trimStart_headOk (Js.trimEnd (Js.trimStart s))).
  - apply trimEnd_idem.
  - apply headOk_trimEnd, headOk_trimStart.
Qed.

Lemma digits_toLowerCase (ds : string) :
  Js.allDigits ds = true -> Js.toLowerCase ds = ds.
Proof.
  induction ds as [|c r IH]; simpl; [reflexivity|]. intros H.
  apply andb_prop in H as [Hc Hr]. destruct (digit_plain c Hc) as [-> _].
  now rewrite IH.
Qed.

Lemma digits_trimEnd (ds : string) :
  Js.allDigits ds = true -> Js.trimEnd ds = ds.
Proof.
  induction ds as [|c r IH]; simpl; [reflexivity|]. intros H.
  apply andb_prop in H as [Hc Hr]. destruct (digit_plain c Hc) as [_ W].
  rewrite (IH Hr), W. now destruct r.
Qed.

(** A category that [formatCategory] has produced is formatted to itself. *)
Lemma formatCategory_fixed (x : json) (c : string) :
  Moderation.formatCategory x = Ok c ->
  Moderation.formatCategory (JStr c) = Ok c.
Proof.
  destruct x as [| | |s| |]; try discriminate.
  unfold Moderation.formatCategory at 1.
  set (t := Js.trim (Js.toLowerCase s)).
  assert (Ht : Js.trim (Js.toLowerCase t) = t).
  { unfold t.
    now rewrite (toLowerCase_trim (Js.toLowerCase s)), toLowerCase_idem,
      trim_idem. }
  destruct (Js.matchesSDigits t
            && ((1 <=? Js.toNumber (Js.substring 1 t))%N
                && (Js.toNumber (Js.substring 1 t) <=? 13)%N)) eqn:Hm.
  - intros [= <-].
    apply andb_prop in Hm as [Hs Hr].
    destruct t as [|a ds]; [discriminate|].
    unfold Js.matchesSDigits in Hs.
    apply andb_prop in Hs as [Hs Hd]. apply andb_prop in Hs as [Ha Hne].
    apply Ascii.eqb_eq in Ha. subst a.
    change (Js.substring 1 (String "s" ds)) with ds in *.
    change ("S" ++ ds) with (String "S" ds).
    assert (Hf : Js.trim (Js.toLowerCase (String "S" ds)) = String "s" ds).
    { simpl. rewrite (digits_toLowerCase ds Hd).
      unfold Js.trim. simpl. rewrite (digits_trimEnd ds Hd).
      destruct ds; [discriminate|reflexivity]. }
    unfold Moderation.formatCategory. rewrite Hf.
    change (Js.substring 1 (String "s" ds)) with ds.
    unfold Js.matchesSDigits. rewrite Ascii.eqb_refl, Hne, Hd, Hr. reflexivity.
  - destruct (String.eqb t "safe" || String.eqb t "unsafe") eqn:Hsafe.
    + intros [= <-]. apply orb_prop in Hsafe as [E|E];
        apply String.eqb_eq in E; rewrite E; reflexivity.
    + intros [= <-]. unfold Moderation.formatCategory.
      rewrite Ht, Hm, Hsafe. reflexivity.
Qed.

Lemma formatCategories_fixed (items : list json) (cats : list string) :
  Moderation.formatCategories items = Ok cats ->
  Moderation.formatCategories (map JStr cats) = Ok cats.
Proof.
  revert cats. induction items as [|x rest IH]; intros cats; simpl.
  - now intros [= <-].
  - destruct (Moderation.formatCategory x) as [c|] eqn:Hc; [|discriminate].
    simpl. destruct (Moderation.formatCategories rest) as [cs|] eqn:Hr;
      [|discriminate].
    simpl. intros [= <-].
    change (map JStr (c :: cs)) with (JStr c :: map JStr cs).
    change (Moderation.formatCategories (JStr c :: map JStr cs))
      with (c' <- Moderation.formatCategory (JStr c) ;;
            rest' <- Moderation.formatCategories (map JStr cs) ;;
            Ok (c' :: rest')).
    now rewrite (formatCategory_fixed x c Hc), (IH cs eq_refl).
Qed.

(** ** The written form of a category list *)

Lemma noLineFeed_app (a b : string) :
  Js.noLineFeed (a ++ b) = Js.noLineFeed a && Js.noLineFeed b.
Proof.
  induction a as [|c r IH]; simpl; [reflexivity|].
  now rewrite IH, andb_assoc.
Qed.

Lemma startsWith_noLineFeed (s p : string) :
  Js.noLineFeed s = true -> Js.noLineFeed p = false ->
  Js.startsWith s p = false.
Proof.
  intros Hs Hp. destruct (Js.startsWith s p) eqn:E; [|reflexivity].
  apply startsWith_prefix in E as [q ->].
  rewrite noLineFeed_app, Hp in Hs. discriminate.
Qed.

Lemma stripFences_noLineFeed (s : string) :
  Js.noLineFeed s = true -> Js.stripFences s = s.
Proof.
  unfold Js.stripFences. induction s as [|c r IH]; intros H; [reflexivity|].
  cbn [Js.stripFencesFrom].
  rewrite !(startsWith_noLineFeed (String c r)) by (exact H || reflexivity).
  simpl in H. apply andb_prop in H as [_ H]. now rewrite IH.
Qed.

Lemma noLineFeed_quoteChar (c : ascii) :
  Js.noLineFeed (JSON.quoteChar c) = true.
Proof. each_char c; reflexivity. Qed.

Lemma noLineFeed_quote (s : string) : Js.noLineFeed (JSON.quote s) = true.
Proof.
  unfold JSON.quote. simpl. rewrite noLineFeed_app. simpl.
  rewrite andb_true_r.
  induction s as [|c r IH]; simpl; [reflexivity|].
  now rewrite noLineFeed_app, noLineFeed_quoteChar, IH.
Qed.

Lemma noLineFeed_stringify (l : list string) :
  Js.noLineFeed (JSON.stringify l) = true.
Proof.
  unfold JSON.stringify. simpl. rewrite noLineFeed_app. simpl.
  rewrite andb_true_r.
  induction l as [|s rest IH]; [reflexivity|].
  destruct rest as [|s2 rest].
  - apply noLineFeed_quote.
  - change (JSON.joinQuoted (s :: s2 :: rest))
      with (JSON.quote s ++ "," ++ JSON.joinQuoted (s2 :: rest)).
    rewrite !noLineFeed_app, noLineFeed_quote, IH. reflexivity.
Qed.

Lemma trimEnd_closing (x : string) : Js.trimEnd (x ++ "]") = x ++ "]".
Proof.
  induction x as [|c r IH]; [reflexivity|].
  simpl. rewrite IH. now destruct (r ++ "]") eqn:E; [destruct r|].
Qed.

Lemma length_app (a b : string) :
  String.length (a ++ b) = String.length a + String.length b.
Proof. induction a; simpl; congruence. Qed.

Lemma substring_app (a b : string) : Js.substring (String.length a) (a ++ b) = b.
Proof. induction a; simpl; [now destruct b|assumption]. Qed.

Lemma endsWith_app (a p : string) : Js.endsWith (a ++ p) p = true.
Proof.
  unfold Js.endsWith. rewrite length_app.
  replace (String.length a + String.length p - String.length p)
    with (String.length a) by lia.
  rewrite substring_app, String.eqb_refl, andb_true_r.
  apply Nat.leb_le. lia.
Qed.

(** The written form of a list of strings goes through the cleaning
    unchanged and is taken for a JSON array. *)
Lemma stringify_clean (l : list string) :
  Js.trim (Js.stripFences (JSON.stringify l)) = JSON.stringify l
  /\ Js.startsWith (JSON.stringify l) "[" = true
  /\ Js.endsWith (JSON.stringify l) "]" = true.
Proof.
  rewrite (stripFences_noLineFeed _ (noLineFeed_stringify l)).
  unfold JSON.stringify. split; [|split].
  - unfold Js.trim.
    change (Js.trimStart ("[" ++ JSON.joinQuoted l ++ "]"))
      with ("[" ++ JSON.joinQuoted l ++ "]").
    rewrite <- append_assoc. apply trimEnd_closing.
  - simpl. now destruct (JSON.joinQuoted l ++ "]").
  - rewrite <- append_assoc. apply endsWith_app.
Qed.

(** ** Reading back what was written *)

Lemma revOnto_revOnto (s a b : string) :
  JSON.revOnto (JSON.revOnto s a) b = JSON.revOnto a (s ++ b).
Proof.
  revert a b. induction s as [|c r IH]; intros a b; simpl; [reflexivity|].
  now rewrite IH.
Qed.

Lemma revString_revOnto (s : string) :
  JSON.revString (JSON.revOnto s "") = s.
Proof.
  unfold JSON.revString. rewrite revOnto_revOnto. simpl.
  apply append_empty_r.
Qed.

Lemma lex_quoteChar (c : ascii) (acc rest : string) :
  JSON.lexFrom (JSON.LStr acc) (JSON.quoteChar c ++ rest)
  = JSON.lexFrom (JSON.LStr (String c acc)) rest.
Proof.
  each_char c; simpl;
    destruct (JSON.lexFrom (JSON.LStr (String _ acc)) rest); reflexivity.
Qed.

Lemma lex_quoteBody (s acc rest : string) :
  JSON.lexFrom (JSON.LStr acc) (JSON.quoteBody s ++ rest)
  = JSON.lexFrom (JSON.LStr (JSON.revOnto s acc)) rest.
Proof.
  revert acc. induction s as [|c r IH]; intros acc; simpl; [reflexivity|].
  now rewrite append_assoc, lex_quoteChar, IH.
Qed.

Lemma lex_quote (s rest : string) (ts : list JSON.token) :
  JSON.lexFrom JSON.LIdle rest = Some ts ->
  JSON.lexFrom JSON.LIdle (JSON.quote s ++ rest)
  = Some (JSON.TString s :: ts).
Proof.
  intros H. unfold JSON.quote.
  change (JSON.lexFrom JSON.LIdle
            (String JSON.DQUOTE
               (JSON.quoteBody s ++ String JSON.DQUOTE "") ++ rest))
    with (match JSON.lexFrom (JSON.LStr "")
                  ((JSON.quoteBody s ++ String JSON.DQUOTE "") ++ rest) with
          | Some us => Some ([] ++ us)%list
          | None => None
          end).
  rewrite append_assoc, lex_quoteBody.
  change (JSON.lexFrom (JSON.LStr (JSON.revOnto s ""))
            (String JSON.DQUOTE "" ++ rest))
    with (match JSON.lexFrom JSON.LIdle rest with
          | Some us =>
              Some ([JSON.TString (JSON.revString (JSON.revOnto s ""))]
                      ++ us)%list
          | None => None
          end).
  now rewrite H, revString_revOnto.
Qed.

Lemma lex_joinQuoted (l : list string) :
  JSON.lexFrom JSON.LIdle (JSON.joinQuoted l ++ "]")
  = Some (JSON.itemTokens l ++ [JSON.TRBracket])%list.
Proof.
  induction l as [|s rest IH]; [reflexivity|].
  destruct rest as [|s2 rest].
  - now apply lex_quote.
  - change (JSON.joinQuoted (s :: s2 :: rest))
      with (JSON.quote s ++ "," ++ JSON.joinQuoted (s2 :: rest)).
    rewrite append_assoc.
    apply (lex_quote s _
             (JSON.TComma :: JSON.itemTokens (s2 :: rest)
                ++ [JSON.TRBracket])%list).
    change (("," ++ JSON.joinQuoted (s2 :: rest)) ++ "]")
      with (String "," (JSON.joinQuoted (s2 :: rest) ++ "]")).
    change (JSON.lexFrom JSON.LIdle
              (String "," (JSON.joinQuoted (s2 :: rest) ++ "]")))
      with (match JSON.lexFrom JSON.LIdle
                    (JSON.joinQuoted (s2 :: rest) ++ "]") with
            | Some us => Some ([JSON.TComma] ++ us)%list
            | None => None
            end).
    now rewrite IH.
Qed.

Lemma parse_itemTokens (l : list string) (acc : list json) (m : JSON.mode) :
  l <> [] ->
  m = JSON.MValue \/ m = JSON.MValueOrClose ->
  JSON.parseTokens (m, [JSON.FArr acc])
    (JSON.itemTokens l ++ [JSON.TRBracket])%list
  = Some (JArr (rev acc ++ map JStr l)%list).
Proof.
  revert acc m. induction l as [|s rest IH]; intros acc m Hl Hm;
    [now destruct Hl|].
  destruct rest as [|s2 rest].
  - destruct Hm as [-> | ->]; reflexivity.
  - assert (E : JSON.parseTokens (m, [JSON.FArr acc])
                  (JSON.itemTokens (s :: s2 :: rest) ++ [JSON.TRBracket])%list
                = JSON.parseTokens (JSON.MValue, [JSON.FArr (JStr s :: acc)])
                    (JSON.itemTokens (s2 :: rest) ++ [JSON.TRBracket])%list).
    { destruct Hm as [-> | ->]; reflexivity. }
    rewrite E, (IH (JStr s :: acc) JSON.MValue) by (discriminate || now left).
    simpl. now rewrite <- app_assoc.
Qed.

(** [JSON.parse] reads back the array that [JSON.stringify] wrote. *)
Lemma parse_stringify (l : list string) :
  JSON.parse (JSON.stringify l) = Some (JArr (map JStr l)).
Proof.
  unfold JSON.parse, JSON.lex, JSON.stringify.
  change (JSON.lexFrom JSON.LIdle ("[" ++ JSON.joinQuoted l ++ "]"))
    with (match JSON.lexFrom JSON.LIdle (JSON.joinQuoted l ++ "]") with
          | Some us => Some ([JSON.TLBracket] ++ us)%list
          | None => None
          end).
  rewrite lex_joinQuoted.
  destruct l as [|s rest]; [reflexivity|].
  change (JSON.parseTokens (JSON.MValue, [])
            ([JSON.TLBracket]
               ++ JSON.itemTokens (s :: rest) ++ [JSON.TRBracket])%list)
    with (JSON.parseTokens (JSON.MValueOrClose, [JSON.FArr []])
            (JSON.itemTokens (s :: rest) ++ [JSON.TRBracket])%list).
  now rewrite (parse_itemTokens (s :: rest) [] JSON.MValueOrClose)
    by (discriminate || now right).
Qed.

(** ** Idempotence *)

(** C9.  A category list that moderation has recorded, written back as a JSON
    array ([JSON.stringify]) and given to moderation again, is recorded
    unchanged, with the same flag: for any [JSON.parse] that reads the
    written array back, and so for the JSON reader of this development,
    which reads back every array of strings; the list [S1], [safe] is an
    instance. *)
Theorem moderation_idempotent_on_output :
  (forall (JSON_parse : string -> option json) (now now' : Z)
          (responseContent : option json) (m : Moderation),
      Moderation.moderateMessage JSON_parse now responseContent = Some m ->
      JSON_parse (JSON.stringify (categories m))
      = Some (JArr (map JStr (categories m))) ->
      Moderation.moderateMessage JSON_parse now'
        (Some (JStr (JSON.stringify (categories m))))
      = Some (mkModeration (categories m) now' "llama-guard3" (flagged m)))
  /\ (forall (now now' : Z) (responseContent : option json) (m : Moderation),
         Moderation.moderateMessage JSON.parse now responseContent = Some m ->
         Moderation.moderateMessage JSON.parse now'
           (Some (JStr (JSON.stringify (categories m))))
         = Some (mkModeration (categories m) now' "llama-guard3" (flagged m)))
  /\ (forall now : Z,
         Moderation.moderateMessage JSON.parse now
           (Some (JStr (JSON.stringify Sample.s1Safe)))
         = Some (mkModeration Sample.s1Safe now "llama-guard3" true)).
Proof.
  assert (G : forall (JSON_parse : string -> option json) (now now' : Z)
                     (responseContent : option json) (m : Moderation),
             Moderation.moderateMessage JSON_parse now responseContent
             = Some m ->
             JSON_parse (JSON.stringify (categories m))
             = Some (JArr (map JStr (categories m))) ->
             Moderation.moderateMessage JSON_parse now'
               (Some (JStr (JSON.stringify (categories m))))
             = Some (mkModeration (categories m) now' "llama-guard3"
                       (flagged m))).
  { intros JSON_parse now now' responseContent m Hm Hp.
    unfold Moderation.moderateMessage in Hm.
    destruct responseContent as [content|]; [|discriminate].
    destruct (negb (Value.truthy content)); [discriminate|].
    destruct (Moderation.parseOllamaResponse JSON_parse content);
      try discriminate.
    destruct (Moderation.formatCategories items) as [cats|] eqn:Hf;
      [|discriminate].
    injection Hm as <-. simpl in *.
    unfold Moderation.moderateMessage.
    change (negb (Value.truthy (JStr (JSON.stringify cats)))) with false.
    cbv iota.
    unfold Moderation.parseOllamaResponse, Moderation.parseOllamaResponse_try,
      Moderation.cleanResponse, bind, tryCatch.
    destruct (stringify_clean cats) as [-> [Hs He]].
    unfold Moderation.jsonArrayAttempt.
    rewrite Hs, He, Hp. simpl.
    now rewrite (formatCategories_fixed items cats Hf). }
  split; [exact G|split].
  - intros now now' responseContent m Hm.
    apply (G JSON.parse now now' responseContent m Hm), parse_stringify.
  - intros now. reflexivity.
Qed.

(** Witness of C9: the list [S1], [safe], recorded from the reply that spells
    it as a JSON array. *)
Lemma moderation_idempotent_on_output_witness :
  Moderation.moderateMessage JSON.parse 1
    (Some (JStr (JSON.stringify
                   (categories (mkModeration Sample.s1Safe 0
                                  "llama-guard3" true)))))
  = Some (mkModeration
            (categories (mkModeration Sample.s1Safe 0 "llama-guard3" true))
            1 "llama-guard3"
            (flagged (mkModeration Sample.s1Safe 0 "llama-guard3" true))).
Proof.
  apply (proj1 moderation_idempotent_on_output JSON.parse 0%Z 1%Z
           (Some (JStr (text "['S1', 'safe']")))
           (mkModeration Sample.s1Safe 0 "llama-guard3" true)).
  - vm_compute. reflexivity.
  - vm_compute. reflexivity.
Defined.

(* ================================================================== *)
(** * Further properties of the forms *)
(* ================================================================== *)

Section OtherForms.

Variable decode : Uint8Array -> string.
Variable JSON_parse : string -> option json.




Lemma not_object_carries_nothing (line : string) :
  (forall members, eventOf JSON_parse line <> Some (JObj members)) ->
  carriedId JSON_parse line = None /\ terminal JSON_parse line = false.
Proof.
  intros H. unfold carriedId, terminal.
  destruct (eventOf JSON_parse line) as [parsed|]; [|now split].
  destruct parsed; try (now split).
  now destruct (H members).
Qed.

(** X2.  In each of the three forms a line changes the two variables only if
    it begins with the prefix and its remainder parses to a JSON object: a
    line without the prefix, a malformed line, and an event that is [null],
    a number, a string, a boolean or an array all leave them as they were. *)
Theorem only_objects_change_the_scan (st : ScanResult) (line : string) :
  (forall members, eventOf JSON_parse line <> Some (JObj members)) ->
  forLine (QuizForm.tryBlock JSON_parse) st line = st
  /\ forLine (LessonPlanForm.tryBlock JSON_parse) st line = st
  /\ forLine (AgentQuizForm.tryBlock JSON_parse) st line = st.
Proof.
  intros H. destruct (not_object_carries_nothing line H) as [Hc Ht].
  assert (L : forLine (LessonPlanForm.tryBlock JSON_parse) st line = st).
  { rewrite LessonPlanForm_forLine, Hc, Ht, orb_false_r.
    destruct st as [cid done]; simpl. now destruct (Value.isNull cid). }
  split; [|split; [exact L|exact L]].
  rewrite QuizForm_forLine. unfold truthyId. rewrite Hc, Ht, orb_false_r.
  destruct st as [cid done]; simpl. now destruct (Value.truthy cid).
Qed.

End OtherForms.

(** Witness of X2: the event [null], whose members cannot be read. *)
Lemma only_objects_change_the_scan_witness :
  forLine (QuizForm.tryBlock JSON.parse) (mkScan JNull false) "data: null"
  = mkScan JNull false
  /\ forLine (LessonPlanForm.tryBlock JSON.parse) (mkScan JNull false)
       "data: null"
     = mkScan JNull false
  /\ forLine (AgentQuizForm.tryBlock JSON.parse) (mkScan JNull false)
       "data: null"
     = mkScan JNull false.
Proof.
  apply (only_objects_change_the_scan JSON.parse (mkScan JNull false)
           "data: null").
  intros members. vm_compute. discriminate.
Defined.

(** ** From the response to the redirection *)





(** ** The whole of [handleSubmit] *)




(** X5.  [handleSubmit] of [QuizForm] and of [AgentQuizForm] sends a request
    exactly when the token is a non-empty string and the user has a string
    identifier: with a token that is [null] or empty, or a user that is
    [null] or has no string [id], [fetch] is never called. *)
Theorem handleSubmit_sends_only_with_credentials
    (decode : Uint8Array -> string) (JSON_parse : string -> option json)
    (toNumberPositive : json -> bool) (toString : json -> string)
    (fetch : Request -> Try Response) (token : option string) (user : json)
    (formData : FormData) (newId now : string) :
  (fst (QuizFormSubmit.handleSubmit decode JSON_parse fetch token user
          formData newId now) = None
   <-> (token = None \/ token = Some ""
        \/ forall id, Value.optChain (Some user) "id"
                      <> Ok (Some (JStr id))))
  /\ (fst (AgentQuizFormSubmit.handleSubmit decode JSON_parse
             toNumberPositive toString fetch token user formData newId now)
      = None
      <-> (token = None \/ token = Some ""
           \/ forall id, Value.optChain (Some user) "id"
                         <> Ok (Some (JStr id)))).
Proof.
  unfold QuizFormSubmit.handleSubmit, AgentQuizFormSubmit.handleSubmit,
    QuizFormSubmit.credentials, AgentQuizFormSubmit.credentials.
  destruct token as [t|].
  2: { split; (split; [intros _; now left|reflexivity]). }
  destruct t as [|c r].
  { split; (split; [intros _; right; now left|reflexivity]). }
  simpl Nat.eqb. cbv iota.
  assert (R : forall P : Prop,
             (Some (String c r) = None \/ Some (String c r) = Some "" \/ P)
             <-> P).
  { intros P. split; [intros [H|[H|H]]; try discriminate; exact H|].
    intros H. right. now right. }
  split.
  - rewrite R.
    destruct (Value.optChain (Some user) "id") as [[v|]|e] eqn:Hu;
      try (split; [intros _ id; discriminate|reflexivity]).
    destruct v; try (split; [intros _ id; discriminate|reflexivity]).
    simpl. split; [discriminate|]. intros H. now destruct (H s).
  - rewrite R.
    destruct user; simpl;
      try (split; [intros _ id; discriminate|reflexivity]).
    destruct (Value.lookup "id" members) as [v|];
      try (split; [intros _ id; discriminate|reflexivity]).
    destruct v; simpl; try (split; [intros _ id; discriminate|reflexivity]).
    split; [discriminate|]. intros H. now destruct (H s).
Qed.

Lemma authToken_bearer (t : string) :
  Js.startsWith (Submit.authToken t) "Bearer " = true
  /\ (Submit.authToken t = t
      \/ (Submit.authToken t = "Bearer " ++ t
          /\ Js.startsWith t "Bearer " = false)).
Proof.
  unfold Submit.authToken.
  destruct (Js.startsWith t "Bearer ") eqn:E.
  - split; [exact E|now left].
  - split; [cbn; now destruct t|right; now split].
Qed.

(** X6.  Every request that [handleSubmit] of [QuizForm] or of
    [AgentQuizForm] sends carries an [Authorization] header that begins with
    [Bearer ]: the token itself when it has that prefix already, the token
    after the prefix otherwise. *)
Theorem request_authorization_is_bearer
    (decode : Uint8Array -> string) (JSON_parse : string -> option json)
    (toNumberPositive : json -> bool) (toString : json -> string)
    (fetch : Request -> Try Response) (token : option string) (user : json)
    (formData : FormData) (newId now : string) (request : Request) :
  fst (QuizFormSubmit.handleSubmit decode JSON_parse fetch token user
         formData newId now) = Some request
  \/ fst (AgentQuizFormSubmit.handleSubmit decode JSON_parse toNumberPositive
            toString fetch token user formData newId now) = Some request ->
  exists t,
    token = Some t
    /\ Js.startsWith (authorization request) "Bearer " = true
    /\ (authorization request = t
        \/ (authorization request = "Bearer " ++ t
            /\ Js.startsWith t "Bearer " = false)).
Proof.
  unfold QuizFormSubmit.handleSubmit, AgentQuizFormSubmit.handleSubmit,
    QuizFormSubmit.credentials, AgentQuizFormSubmit.credentials.
  destruct token as [t|]; [|intros [H|H]; discriminate].
  destruct (String.length t =? 0)%nat; [intros [H|H]; discriminate|].
  intros H. exists t. split; [reflexivity|].
  assert (E : authorization request = Submit.authToken t).
  { destruct H as [H|H].
    - destruct (Value.optChain (Some user) "id") as [id|]; [|discriminate].
      destruct (Submit.stringId id); [|discriminate].
      simpl in H. now injection H as <-.
    - destruct (Value.isNull user); [discriminate|].
      destruct (Value.getProp user "id") as [id|]; [|discriminate].
      destruct (Submit.stringId id); [|discriminate].
      simpl in H. now injection H as <-. }
  rewrite E. apply authToken_bearer.
Qed.

(** Witness of X6: a bare token. *)
Lemma request_authorization_is_bearer_witness :
  exists t,
    Some "abc123" = Some t
    /\ Js.startsWith
         (authorization
            (mkRequest "/api/ask/custom" "Bearer abc123"
               (QuizFormSubmit.promptText SampleMore.quiz) "m1" (Some "u1")
               "t0"))
         "Bearer " = true
    /\ (authorization
          (mkRequest "/api/ask/custom" "Bearer abc123"
             (QuizFormSubmit.promptText SampleMore.quiz) "m1" (Some "u1")
             "t0") = t
        \/ (authorization
              (mkRequest "/api/ask/custom" "Bearer abc123"
                 (QuizFormSubmit.promptText SampleMore.quiz) "m1" (Some "u1")
                 "t0") = "Bearer " ++ t
            /\ Js.startsWith t "Bearer " = false)).
Proof.
  apply (request_authorization_is_bearer decodeAscii JSON.parse
           (fun _ => false) (fun _ => "")
           (fun _ => Raise "offline") (Some "abc123") SampleMore.teacher
           SampleMore.quiz "m1" "t0").
  left. reflexivity.
Defined.

(** X7.  [QuizForm] and [AgentQuizForm] build the same prompt from the same
    form data, although they test the additional instructions differently
    (truthiness in one, [length > 0] in the other). *)
Theorem quiz_prompts_agree (formData : FormData) :
  QuizFormSubmit.promptText formData = AgentQuizFormSubmit.promptText formData.
Proof.
  unfold QuizFormSubmit.promptText, AgentQuizFormSubmit.promptText.
  now destruct (additionalInstructions formData).
Qed.

(* ================================================================== *)
(** * Further properties of moderation *)
(* ================================================================== *)

Lemma lowerChar_not_S (c : ascii) : Js.lowerChar c <> "S"%char.
Proof. each_char c; discriminate. Qed.

Lemma lowered_not_capital (s r : string) :
  Js.toLowerCase s <> String "S" r.
Proof.
  destruct s as [|c s']; simpl; [discriminate|].
  intros [= H _]. now apply (lowerChar_not_S c).
Qed.

(** X8.  A candidate is recorded as a flagged category exactly when, put in
    lower case and trimmed, it is [unsafe] or one of [s1] to [s13] written
    without a leading zero. *)
Theorem flagged_candidates (c r : string) :
  Moderation.formatCategory (JStr c) = Ok r ->
  (Moderation.isFlagged [r] = true <->
   In (Js.trim (Js.toLowerCase c))
      ["unsafe"; "s1"; "s2"; "s3"; "s4"; "s5"; "s6"; "s7"; "s8"; "s9";
       "s10"; "s11"; "s12"; "s13"]).
Proof.
  unfold Moderation.formatCategory.
  assert (Hl : exists u, Js.trim (Js.toLowerCase c) = Js.toLowerCase u).
  { exists (Js.trim c). now rewrite toLowerCase_trim. }
  set (t := Js.trim (Js.toLowerCase c)) in *.
  destruct Hl as [u Hu].
  rewrite isFlagged_iff.
  destruct (Js.matchesSDigits t
            && ((1 <=? Js.toNumber (Js.substring 1 t))%N
                && (Js.toNumber (Js.substring 1 t) <=? 13)%N)) eqn:Hm.
  - intros [= <-].
    apply andb_prop in Hm as [Hs _].
    destruct t as [|a ds]; [discriminate|].
    unfold Js.matchesSDigits in Hs.
    apply andb_prop in Hs as [Hs _]. apply andb_prop in Hs as [Ha _].
    apply Ascii.eqb_eq in Ha. subst a.
    change (Js.substring 1 (String "s" ds)) with ds.
    change ("S" ++ ds) with (String "S" ds).
    split.
    + intros [x [[<-|[]] H]]. simpl in H.
      repeat (destruct H as [H|H]; [try discriminate H;
                                    injection H as <-; simpl; tauto|]).
      destruct H.
    + intros H. exists (String "S" ds). split; [now left|].
      simpl in H.
      repeat (destruct H as [H|H]; [try discriminate H;
                                    injection H as <-; simpl; tauto|]).
      destruct H.
  - assert (Hr : r = t -> (exists x, In x [r] /\ In x
                   ["unsafe"; "S1"; "S2"; "S3"; "S4"; "S5"; "S6"; "S7";
                    "S8"; "S9"; "S10"; "S11"; "S12"; "S13"])
                 <-> In t
                   ["unsafe"; "s1"; "s2"; "s3"; "s4"; "s5"; "s6"; "s7";
                    "s8"; "s9"; "s10"; "s11"; "s12"; "s13"]).
    { intros ->. split.
      - intros [x [[<-|[]] H]]. simpl in H.
        destruct H as [H|H]; [left; exact H|].
        exfalso.
        repeat (destruct H as [H|H];
                [rewrite Hu in H; symmetry in H;
                 exact (lowered_not_capital _ _ H)|]).
        destruct H.
      - intros H. exists t. split; [now left|].
        simpl in H. destruct H as [H|H]; [left; exact H|].
        exfalso.
        repeat (destruct H as [H|H];
                [rewrite <- H in Hm; vm_compute in Hm; discriminate Hm|]).
        destruct H. }
    destruct (String.eqb t "safe" || String.eqb t "unsafe") eqn:Hsafe.
    + intros [= <-]. apply Hr.
      apply orb_prop in Hsafe as [E|E]; apply String.eqb_eq in E;
        rewrite E; reflexivity.
    + intros [= <-]. now apply Hr.
Qed.

(** Witness of X8: the candidate [ S7 ] with spaces around it. *)
Lemma flagged_candidates_witness :
  Moderation.isFlagged ["S7"] = true <->
  In (Js.trim (Js.toLowerCase " S7 "))
     ["unsafe"; "s1"; "s2"; "s3"; "s4"; "s5"; "s6"; "s7"; "s8"; "s9";
      "s10"; "s11"; "s12"; "s13"].
Proof.
  apply (flagged_candidates " S7 " "S7"). vm_compute. reflexivity.
Defined.

Lemma formatCategories_notString (items : list json) :
  existsb notString items = true ->
  exists e, Moderation.formatCategories items = Throw e.
Proof.
  induction items as [|x rest IH]; simpl; [discriminate|].
  intros H. apply orb_prop in H as [H|H].
  - destruct x; try discriminate H; now exists TypeError.
  - destruct (IH H) as [e He].
    destruct (Moderation.formatCategory x) as [c|e']; simpl.
    + rewrite He. now exists e.
    + now exists e'.
Qed.

Lemma formatCategories_strings (cats : list string) :
  exists out, Moderation.formatCategories (map JStr cats) = Ok out
              /\ List.length out = List.length cats.
Proof.
  induction cats as [|c rest [out [IH Hlen]]].
  - now exists [].
  - change (Moderation.formatCategories (map JStr (c :: rest)))
      with (c' <- Moderation.formatCategory (JStr c) ;;
            rest' <- Moderation.formatCategories (map JStr rest) ;;
            Ok (c' :: rest')).
    rewrite IH.
    assert (F : exists r, Moderation.formatCategory (JStr c) = Ok r).
    { unfold Moderation.formatCategory.
      destruct (_ && _); [eexists; reflexivity|].
      destruct (_ || _); eexists; reflexivity. }
    destruct F as [r ->]. exists (r :: out). simpl. now rewrite Hlen.
Qed.

Lemma all_strings (items : list json) :
  existsb notString items = false -> exists cats, items = map JStr cats.
Proof.
  induction items as [|x rest IH]; simpl; [now exists []|].
  intros H. apply orb_false_elim in H as [Hx Hr].
  destruct (IH Hr) as [cats ->].
  destruct x; try discriminate Hx. now exists (s :: cats).
Qed.

(** X9.  A non-empty reply that is taken as a JSON array is recorded exactly
    when all its elements are strings: if one of them is not (a number,
    [null], a nested array, an object), formatting throws, the error is only
    logged, and no moderation is saved for the message. *)
Theorem non_string_category_records_nothing
    (JSON_parse : string -> option json) (now : Z) (s : string)
    (items : list json) :
  s <> "" ->
  Moderation.jsonArrayAttempt JSON_parse (Js.trim (Js.stripFences s))
  = Some (JArr items) ->
  (Moderation.moderateMessage JSON_parse now (Some (JStr s)) = None
   <-> existsb notString items = true).
Proof.
  intros Hs Hj.
  assert (E : Moderation.moderateMessage JSON_parse now (Some (JStr s))
              = match Moderation.formatCategories items with
                | Ok cats =>
                    Some (mkModeration cats now "llama-guard3"
                            (Moderation.isFlagged cats))
                | Throw _ => None
                end).
  { unfold Moderation.moderateMessage.
    destruct s; [now destruct Hs|]. simpl negb. cbv iota.
    unfold Moderation.parseOllamaResponse, Moderation.parseOllamaResponse_try.
    cbn [Moderation.cleanResponse bind tryCatch]. now rewrite Hj. }
  rewrite E. split.
  - intros H. destruct (existsb notString items) eqn:Hn; [reflexivity|].
    destruct (all_strings items Hn) as [cats ->].
    destruct (formatCategories_strings cats) as [out [Hout _]].
    rewrite Hout in H. discriminate H.
  - intros Hn. now destruct (formatCategories_notString items Hn) as [e ->].
Qed.

(** Witness of X9: a code and a number. *)
Lemma non_string_category_records_nothing_witness :
  Moderation.moderateMessage JSON.parse 0 (Some (JStr (text "['S1', 2]")))
  = None
  <-> existsb notString [JStr "S1"; JNum 2 0] = true.
Proof.
  apply (non_string_category_records_nothing JSON.parse 0
           (text "['S1', 2]") [JStr "S1"; JNum 2 0]).
  - discriminate.
  - vm_compute. reflexivity.
Defined.

(** X10.  When the reply goes to the line-based parsing and every line kept
    by the noise filters contains [safe], moderation records the single
    category [safe], not flagged; a reply that reads [unsafe] and nothing
    else is such a reply. *)
Theorem lines_containing_safe_record_safe
    (JSON_parse : string -> option json) (now : Z) (s : string) :
  s <> "" ->
  Moderation.jsonArrayAttempt JSON_parse (Js.trim (Js.stripFences s)) = None ->
  forallb (fun line => Js.includes line "safe")
          (Moderation.candidateLines (Js.trim (Js.stripFences s))) = true ->
  Moderation.moderateMessage JSON_parse now (Some (JStr s))
  = Some (mkModeration ["safe"] now "llama-guard3" false).
Proof.
  intros Hs Hj Hl. unfold Moderation.moderateMessage.
  destruct s; [now destruct Hs|]. simpl negb. cbv iota.
  unfold Moderation.parseOllamaResponse, Moderation.parseOllamaResponse_try.
  cbn [Moderation.cleanResponse bind]. rewrite Hj.
  unfold Moderation.lineBased. rewrite Hl. reflexivity.
Qed.

(** Witness of X10: the reply [unsafe]. *)
Lemma lines_containing_safe_record_safe_witness :
  Moderation.moderateMessage JSON.parse 0 (Some (JStr "unsafe"))
  = Some (mkModeration ["safe"] 0 "llama-guard3" false).
Proof.
  apply (lines_containing_safe_record_safe JSON.parse 0 "unsafe").
  - discriminate.
  - vm_compute. reflexivity.
  - vm_compute. reflexivity.
Defined.

(** ** Fenced replies *)

Lemma plain_noLineFeed (s : string) :
  Fence.plain s = true -> Js.noLineFeed s = true.
Proof.
  induction s as [|c r IH]; simpl; [reflexivity|]. intros H.
  apply andb_prop in H as [H Hr]. apply andb_prop in H as [_ Hc].
  now rewrite Hc, IH.
Qed.

Lemma stripFences_closing (body : string) :
  Fence.plain body = true ->
  Js.stripFencesFrom 0 (body ++ Js.nl ++ "```") = body.
Proof.
  induction body as [|c r IH]; intros H; [reflexivity|].
  simpl in H. apply andb_prop in H as [H Hr]. apply andb_prop in H as [Hq Hc].
  apply negb_true_iff in Hq. apply negb_true_iff in Hc.
  change (String c r ++ Js.nl ++ "```") with (String c (r ++ Js.nl ++ "```")).
  cbn [Js.stripFencesFrom].
  assert (E1 : Js.startsWith (String c (r ++ Js.nl ++ "```"))
                 ("```json" ++ Js.nl) = false).
  { change ("```json" ++ Js.nl) with (String "`" ("``json" ++ Js.nl)).
    cbn [Js.startsWith]. rewrite Ascii.eqb_sym in Hq. now rewrite Hq. }
  assert (E2 : Js.startsWith (String c (r ++ Js.nl ++ "```"))
                 (Js.nl ++ "```") = false).
  { change (Js.nl ++ "```") with (String Js.LF "```").
    cbn [Js.startsWith]. rewrite Ascii.eqb_sym in Hc. now rewrite Hc. }
  now rewrite E1, E2, (IH Hr).
Qed.

Lemma startsWith_app (p x : string) : Js.startsWith (p ++ x) p = true.
Proof.
  induction p as [|a p IH]; simpl; [now destruct x|].
  now rewrite Ascii.eqb_refl.
Qed.

Lemma stripFences_opening (x : string) :
  Js.stripFencesFrom 0 (("```json" ++ Js.nl) ++ x) = Js.stripFencesFrom 0 x.
Proof.
  pose proof (startsWith_app ("```json" ++ Js.nl) x) as E.
  change (("```json" ++ Js.nl) ++ x)
    with (String "`" (String "`" (String "`" (String "j" (String "s"
            (String "o" (String "n" (String Js.LF x)))))))) in *.
  cbn [Js.stripFencesFrom]. rewrite E. reflexivity.
Qed.

Lemma stripFences_wrap (body : string) :
  Fence.plain body = true -> Js.stripFences (Fence.wrap body) = body.
Proof.
  intros H. unfold Js.stripFences, Fence.wrap.
  change ("```json" ++ Js.nl ++ body ++ Js.nl ++ "```")
    with (("```json" ++ Js.nl) ++ body ++ Js.nl ++ "```").
  rewrite stripFences_opening.
  apply (stripFences_closing body H).
Qed.

(** X11.  A reply written in a markdown fence with the [json] tag is
    moderated exactly as its content, when the content is not empty and has
    neither a backtick nor a line feed. *)
Theorem fenced_reply_is_moderated_as_its_content
    (JSON_parse : string -> option json) (now : Z) (body : string) :
  body <> "" ->
  Fence.plain body = true ->
  Moderation.moderateMessage JSON_parse now (Some (JStr (Fence.wrap body)))
  = Moderation.moderateMessage JSON_parse now (Some (JStr body)).
Proof.
  intros Hb Hp.
  assert (E : Moderation.parseOllamaResponse JSON_parse
                (JStr (Fence.wrap body))
              = Moderation.parseOllamaResponse JSON_parse (JStr body)).
  { unfold Moderation.parseOllamaResponse, Moderation.parseOllamaResponse_try,
      Moderation.cleanResponse.
    now rewrite (stripFences_wrap body Hp),
      (stripFences_noLineFeed body (plain_noLineFeed body Hp)). }
  unfold Moderation.moderateMessage. rewrite E.
  destruct body; [now destruct Hb|reflexivity].
Qed.

(** Witness of X11: the code [S1] as a fenced JSON array. *)
Lemma fenced_reply_is_moderated_as_its_content_witness :
  Moderation.moderateMessage JSON.parse 0
    (Some (JStr (Fence.wrap (text "['S1']"))))
  = Moderation.moderateMessage JSON.parse 0 (Some (JStr (text "['S1']"))).
Proof.
  apply (fenced_reply_is_moderated_as_its_content JSON.parse 0
           (text "['S1']")).
  - discriminate.
  - vm_compute. reflexivity.
Defined.

(** ** The line-based parsing *)

Lemma candidateLines_normal (clean c : string) :
  In c (Moderation.candidateLines clean) ->
  c <> "" /\ Js.toLowerCase c = c /\ Js.trim c = c
  /\ Js.includes c "no harmful content" = false
  /\ Js.includes c "analysis:" = false
  /\ Js.includes c "categories:" = false.
Proof.
  unfold Moderation.candidateLines. intros H.
  apply filter_In in H as [Hin Hf].
  apply andb_prop in Hf as [Hf H3]. apply andb_prop in Hf as [Hf H2].
  apply andb_prop in Hf as [H0 H1].
  apply negb_true_iff in H1. apply negb_true_iff in H2.
  apply negb_true_iff in H3.
  apply in_map_iff in Hin as [line [<- _]].
  repeat split; try assumption.
  - intros E. rewrite E in H0. discriminate.
  - apply toLowerCase_idem.
  - now rewrite <- toLowerCase_trim, trim_idem.
Qed.

Lemma lineBased_strings (clean : string) :
  exists cats,
    Moderation.lineBased clean = JArr (map JStr cats)
    /\ Forall (fun c => c <> "" /\ Js.toLowerCase c = c /\ Js.trim c = c
                        /\ Js.includes c "no harmful content" = false
                        /\ Js.includes c "analysis:" = false
                        /\ Js.includes c "categories:" = false) cats.
Proof.
  unfold Moderation.lineBased.
  destruct (forallb _ (Moderation.candidateLines clean)).
  - exists ["safe"]. split; [reflexivity|].
    constructor; [|constructor]. repeat split; try reflexivity. discriminate.
  - eexists. split; [reflexivity|].
    apply Forall_forall. intros c Hc. apply filter_In in Hc as [Hc _].
    exact (candidateLines_normal clean c Hc).
Qed.

(** X12.  What [parseOllamaResponse] returns from the line-based parsing is
    an array of strings, each of them non-empty, in lower case, trimmed, and
    free of the three noise phrases. *)
Theorem line_based_categories_are_normal
    (JSON_parse : string -> option json) (s : string) :
  Moderation.jsonArrayAttempt JSON_parse (Js.trim (Js.stripFences s)) = None ->
  exists cats,
    Moderation.parseOllamaResponse JSON_parse (JStr s) = JArr (map JStr cats)
    /\ Forall (fun c => c <> "" /\ Js.toLowerCase c = c /\ Js.trim c = c
                        /\ Js.includes c "no harmful content" = false
                        /\ Js.includes c "analysis:" = false
                        /\ Js.includes c "categories:" = false) cats.
Proof.
  intros Hj.
  unfold Moderation.parseOllamaResponse, Moderation.parseOllamaResponse_try.
  cbn [Moderation.cleanResponse bind tryCatch]. rewrite Hj.
  apply lineBased_strings.
Qed.

(** Witness of X12: two lines of prose. *)
Lemma line_based_categories_are_normal_witness :
  exists cats,
    Moderation.parseOllamaResponse JSON.parse
      (JStr (text "  Hate Speech |S3"))
    = JArr (map JStr cats)
    /\ Forall (fun c => c <> "" /\ Js.toLowerCase c = c /\ Js.trim c = c
                        /\ Js.includes c "no harmful content" = false
                        /\ Js.includes c "analysis:" = false
                        /\ Js.includes c "categories:" = false) cats.
Proof.
  apply (line_based_categories_are_normal JSON.parse
           (text "  Hate Speech |S3")).
  vm_compute. reflexivity.
Defined.

(** X13.  A non-empty reply that goes to the line-based parsing is always
    recorded: formatting cannot throw on it, and the moderation saved has one
    category for each line the parser returned. *)
Theorem line_based_reply_is_recorded
    (JSON_parse : string -> option json) (now : Z) (s : string) :
  s <> "" ->
  Moderation.jsonArrayAttempt JSON_parse (Js.trim (Js.stripFences s)) = None ->
  exists lines cats,
    Moderation.parseOllamaResponse JSON_parse (JStr s) = JArr (map JStr lines)
    /\ List.length cats = List.length lines
    /\ Moderation.moderateMessage JSON_parse now (Some (JStr s))
       = Some (mkModeration cats now "llama-guard3"
                 (Moderation.isFlagged cats)).
Proof.
  intros Hs Hj.
  assert (E : Moderation.parseOllamaResponse JSON_parse (JStr s)
              = Moderation.lineBased (Js.trim (Js.stripFences s))).
  { unfold Moderation.parseOllamaResponse, Moderation.parseOllamaResponse_try.
    cbn [Moderation.cleanResponse bind tryCatch]. now rewrite Hj. }
  destruct (lineBased_strings (Js.trim (Js.stripFences s))) as [lines [Hl _]].
  destruct (formatCategories_strings lines) as [cats [Hf Hlen]].
  exists lines, cats. rewrite E, Hl. split; [reflexivity|]. split; [exact Hlen|].
  unfold Moderation.moderateMessage. rewrite E, Hl, Hf.
  destruct s; [now destruct Hs|reflexivity].
Qed.

(** Witness of X13: two lines of prose. *)
Lemma line_based_reply_is_recorded_witness :
  exists lines cats,
    Moderation.parseOllamaResponse JSON.parse
      (JStr (text "  Hate Speech |S3"))
    = JArr (map JStr lines)
    /\ List.length cats = List.length lines
    /\ Moderation.moderateMessage JSON.parse 0
         (Some (JStr (text "  Hate Speech |S3")))
       = Some (mkModeration cats 0 "llama-guard3"
                 (Moderation.isFlagged cats)).
Proof.
  apply (line_based_reply_is_recorded JSON.parse 0
           (text "  Hate Speech |S3")).
  - discriminate.
  - vm_compute. reflexivity.
Defined.

(* ================================================================== *)
(** * Properties of [AskController] *)
(* ================================================================== *)

(** X14.  For a truthy conversation, any object in particular, the title
    assigned is [null] when the conversation has no title or a falsy one, and
    the title it has otherwise: the fallback [New Chat] is never chosen. *)
Theorem conversation_title_never_falls_back (conversation : json) :
  Value.truthy conversation = true ->
  AskController.conversationTitle conversation
  = Ok (match Value.getProp conversation "title" with
        | Ok (Some t) => if Value.truthy t then t else JNull
        | _ => JNull
        end).
Proof.
  intros H. unfold AskController.conversationTitle. rewrite H.
  destruct conversation; try discriminate H; try reflexivity.
  simpl. destruct (Value.lookup "title" members) as [t|]; [|reflexivity].
  simpl. now destruct (Value.truthy t).
Qed.

(** Witness of X14: the conversation without members. *)
Lemma conversation_title_never_falls_back_witness :
  AskController.conversationTitle (JObj [])
  = Ok (match Value.getProp (JObj []) "title" with
        | Ok (Some t) => if Value.truthy t then t else JNull
        | _ => JNull
        end).
Proof.
  apply (conversation_title_never_falls_back (JObj [])). reflexivity.
Defined.

Lemma getReqDataKey_keeps_conversation (vars : AskController.ReqVars)
    (key : string) (value : option json) :
  AskController.truthy (AskController.conversationId vars) = true ->
  AskController.conversationId
    (fst (AskController.getReqDataKey vars key value))
  = AskController.conversationId vars.
Proof.
  intros H. unfold AskController.getReqDataKey.
  destruct (String.eqb key "userMessage").
  - destruct value as [v|]; [|reflexivity].
    now destruct (Value.getProp v "messageId").
  - destruct (String.eqb key "userMessagePromise"); [reflexivity|].
    destruct (String.eqb key "responseMessageId"); [reflexivity|].
    destruct (String.eqb key "promptTokens"); [reflexivity|].
    now rewrite H.
Qed.

(** X15.  Once [AskController] holds a truthy conversation identifier,
    [getReqData] never replaces it, whatever the data carry and even when
    the call throws. *)
Theorem getReqData_keeps_conversationId (vars : AskController.ReqVars)
    (data : list (string * option json)) :
  AskController.truthy (AskController.conversationId vars) = true ->
  AskController.conversationId (fst (AskController.getReqData vars data))
  = AskController.conversationId vars.
Proof.
  revert vars. induction data as [|[key value] rest IH]; intros vars H;
    [reflexivity|].
  simpl.
  pose proof (getReqDataKey_keeps_conversation vars key value H) as E.
  destruct (AskController.getReqDataKey vars key value) as [vars' [u|e]];
    simpl in E.
  - rewrite IH; [exact E|]. now rewrite E.
  - exact E.
Qed.

(** Witness of X15: a later identifier and a response identifier. *)
Lemma getReqData_keeps_conversationId_witness :
  AskController.conversationId
    (fst (AskController.getReqData
            (AskController.mkReqVars None None None None None
               (Some (JStr "abc")))
            [("conversationId", Some (JStr "xyz"));
             ("responseMessageId", Some (JStr "r1"))]))
  = AskController.conversationId
      (AskController.mkReqVars None None None None None (Some (JStr "abc"))).
Proof.
  apply (getReqData_keeps_conversationId
           (AskController.mkReqVars None None None None None
              (Some (JStr "abc")))
           [("conversationId", Some (JStr "xyz"));
            ("responseMessageId", Some (JStr "r1"))]).
  reflexivity.
Defined.

Lemma getReqDataKey_other (vars : AskController.ReqVars) (key : string)
    (value : option json) :
  key <> "userMessage" ->
  exists vars',
    AskController.getReqDataKey vars key value = (vars', Ok tt)
    /\ AskController.userMessage vars' = AskController.userMessage vars
    /\ AskController.userMessageId vars' = AskController.userMessageId vars.
Proof.
  intros H. apply String.eqb_neq in H.
  unfold AskController.getReqDataKey. rewrite H.
  destruct (String.eqb key "userMessagePromise"); [now eexists|].
  destruct (String.eqb key "responseMessageId"); [now eexists|].
  destruct (String.eqb key "promptTokens"); [now eexists|].
  destruct (_ && _); now eexists.
Qed.

Lemma getReqData_other (data : list (string * option json))
    (vars : AskController.ReqVars) :
  ~ In "userMessage" (map fst data) ->
  exists vars',
    AskController.getReqData vars data = (vars', Ok tt)
    /\ AskController.userMessage vars' = AskController.userMessage vars
    /\ AskController.userMessageId vars' = AskController.userMessageId vars.
Proof.
  revert vars. induction data as [|[key value] rest IH]; intros vars H.
  - now exists vars.
  - simpl in H.
    destruct (getReqDataKey_other vars key value) as [v1 [E1 [A1 B1]]].
    { intros E. apply H. now left. }
    destruct (IH v1) as [v2 [E2 [A2 B2]]].
    { intros E. apply H. now right. }
    exists v2. simpl. rewrite E1, E2. repeat split; congruence.
Qed.

(** X16.  When the data given to [getReqData] have a member [userMessage],
    that member becomes the user message; if it is an object (or any value
    but [null] and [undefined]) the call returns and the identifier kept is
    its [messageId]; if it is [null] or [undefined] the call throws a
    [TypeError]. *)
Theorem getReqData_userMessage (vars : AskController.ReqVars)
    (data : list (string * option json)) (value : option json) :
  NoDup (map fst data) ->
  In ("userMessage", value) data ->
  AskController.userMessage (fst (AskController.getReqData vars data)) = value
  /\ match value with
     | None => snd (AskController.getReqData vars data) = Throw TypeError
     | Some JNull => snd (AskController.getReqData vars data) = Throw TypeError
     | Some v =>
         snd (AskController.getReqData vars data) = Ok tt
         /\ Value.getProp v "messageId"
            = Ok (AskController.userMessageId
                    (fst (AskController.getReqData vars data)))
     end.
Proof.
  revert vars. induction data as [|[key val] rest IH]; intros vars Hd Hin;
    [now destruct Hin|].
  simpl in Hd. apply NoDup_cons_iff in Hd as [Hk Hd].
  destruct Hin as [Hin|Hin].
  - injection Hin as -> ->.
    cbn [AskController.getReqData].
    unfold AskController.getReqDataKey. rewrite String.eqb_refl.
    destruct value as [v|]; [|now split].
    destruct (Value.getProp v "messageId") as [id|e] eqn:Hg.
    + destruct (getReqData_other rest
                  (AskController.mkReqVars (Some v) id
                     (AskController.userMessagePromise vars)
                     (AskController.responseMessageId vars)
                     (AskController.promptTokens vars)
                     (AskController.conversationId vars)) Hk)
        as [v2 [E2 [A2 B2]]].
      rewrite E2. simpl in *. rewrite A2, B2.
      split; [reflexivity|].
      destruct v; try discriminate Hg; now split.
    + destruct v; try discriminate Hg. simpl in Hg. injection Hg as <-.
      now split.
  - assert (Hne : key <> "userMessage").
    { intros ->. apply Hk. apply in_map_iff.
      now exists ("userMessage", value). }
    destruct (getReqDataKey_other vars key val Hne) as [v1 [E1 _]].
    cbn [AskController.getReqData]. rewrite E1.
    exact (IH v1 Hd Hin).
Qed.

(** Witness of X16: a user message with its identifier, after another
    member. *)
Lemma getReqData_userMessage_witness :
  AskController.userMessage
    (fst (AskController.getReqData
            (AskController.mkReqVars None None None None None None)
            [("promptTokens", Some (JNum 12 0));
             ("userMessage", Some (JObj [("messageId", JStr "m1")]))]))
  = Some (JObj [("messageId", JStr "m1")])
  /\ (snd (AskController.getReqData
             (AskController.mkReqVars None None None None None None)
             [("promptTokens", Some (JNum 12 0));
              ("userMessage", Some (JObj [("messageId", JStr "m1")]))])
      = Ok tt
      /\ Value.getProp (JObj [("messageId", JStr "m1")]) "messageId"
         = Ok (AskController.userMessageId
                 (fst (AskController.getReqData
                         (AskController.mkReqVars None None None None None
                            None)
                         [("promptTokens", Some (JNum 12 0));
                          ("userMessage",
                           Some (JObj [("messageId", JStr "m1")]))])))).
Proof.
  apply (getReqData_userMessage
           (AskController.mkReqVars None None None None None None)
           [("promptTokens", Some (JNum 12 0));
            ("userMessage", Some (JObj [("messageId", JStr "m1")]))]
           (Some (JObj [("messageId", JStr "m1")]))).
  - repeat constructor; simpl; intuition discriminate.
  - right. left. reflexivity.
Defined.

(** ** The credentials of the three forms *)

(** X17.  The three forms accept the same credentials and build the same
    header from them, although [QuizForm] tests [typeof token] and
    [user?.id] where the other two test [token === null] and
    [user === null]. *)
Theorem credentials_agree (token : option string) (user : json) :
  QuizFormSubmit.credentials token user
  = LessonPlanFormSubmit.credentials token user
  /\ AgentQuizFormSubmit.credentials token user
     = LessonPlanFormSubmit.credentials token user.
Proof.
  split; [|reflexivity].
  unfold QuizFormSubmit.credentials, LessonPlanFormSubmit.credentials.
  destruct token as [t|]; [|reflexivity].
  destruct (String.length t =? 0)%nat; [reflexivity|].
  now destruct user.
Qed.
